(** * A Flask hello-world service: [src/ansible_docker_project/app.py]

    The program is nine lines long: it builds a Flask application object,
    registers one view function [home] under the rule ['/'] and, when run
    as a script, starts the development server on 0.0.0.0:5000.

    Everything the program does beyond returning one string is done by
    the framework it calls.  The development therefore has two layers:

    - the program itself ([home], [app], [run_module]), transcribed from
      the source file line by line;
    - the part of Flask and Werkzeug the program goes through (creating
      the application, registering a rule, binding the URL map to a
      request, matching, dispatching, turning a return value or an
      exception into a response, starting the server), written after the
      framework's own functions, whose names the definitions keep.

    Python code is effectful; a computation is a function from the state
    of the world to an outcome (a value, a raised exception, or a call
    that does not come back) and a new world. *)

From Stdlib Require Import String Ascii ZArith List Bool Lia.
From stdpp Require Import gmap strings list.
Import ListNotations.

Open Scope string_scope.
Open Scope Z_scope.

(** ** Python strings *)

Module PyStr.

(** [str.upper] on the letters a to z.  The strings of a WSGI
    environment are Latin-1; Python also maps the accented letters, to
    characters outside ASCII (and the sharp s to two S), so whether the
    result is one of GET, HEAD or OPTIONS is decided by the ASCII
    letters alone. *)
Definition upper_char (c : ascii) : ascii :=
  let n := nat_of_ascii c in
  if ((97 <=? n)%nat && (n <=? 122)%nat)%bool then ascii_of_nat (n - 32) else c.

Fixpoint upper (s : string) : string :=
  match s with
  | EmptyString => EmptyString
  | String c s' => String (upper_char c) (upper s')
  end.

(** [str.lower] on the letters A to Z; as for [upper], the accented
    letters never become ASCII ones. *)
Definition lower_char (c : ascii) : ascii :=
  let n := nat_of_ascii c in
  if ((65 <=? n)%nat && (n <=? 90)%nat)%bool then ascii_of_nat (n + 32) else c.

Fixpoint lower (s : string) : string :=
  match s with
  | EmptyString => EmptyString
  | String c s' => String (lower_char c) (lower s')
  end.

Definition is_slash (c : ascii) : bool := Ascii.eqb c "/"%char.

(** [s.lstrip("/")] *)
Fixpoint lstrip_slash (s : string) : string :=
  match s with
  | EmptyString => EmptyString
  | String c s' => if is_slash c then lstrip_slash s' else s
  end.

(** [s.split("/")]: never empty, [""] for the empty string. *)
Fixpoint split_slash (s : string) : list string :=
  match s with
  | EmptyString => [EmptyString]
  | String c s' =>
      if is_slash c then EmptyString :: split_slash s'
      else match split_slash s' with
           | h :: t => String c h :: t
           | [] => [String c EmptyString]
           end
  end.

(** [s.split(",")] *)
Fixpoint split_comma (s : string) : list string :=
  match s with
  | EmptyString => [EmptyString]
  | String c s' =>
      if Ascii.eqb c ","%char then EmptyString :: split_comma s'
      else match split_comma s' with
           | h :: t => String c h :: t
           | [] => [String c EmptyString]
           end
  end.

(** ["/".join(l)] *)
Fixpoint join_slash (l : list string) : string :=
  match l with
  | [] => EmptyString
  | [x] => x
  | x :: t => x ++ String "/" (join_slash t)
  end.

(** [re.sub("/{2,}", "/", s)]: every run of slashes becomes one slash
    (a slash followed by a slash is dropped). *)
Fixpoint merge_slashes (s : string) : string :=
  match s with
  | EmptyString => EmptyString
  | String c rest =>
      match rest with
      | EmptyString => String c EmptyString
      | String d _ =>
          if (is_slash c && is_slash d)%bool
          then merge_slashes rest
          else String c (merge_slashes rest)
      end
  end.

(** The white space [str.strip()] removes, in Latin-1. *)
Definition is_space (c : ascii) : bool :=
  let n := nat_of_ascii c in
  (((9 <=? n) && (n <=? 13)) || ((28 <=? n) && (n <=? 32))
   || (n =? 133) || (n =? 160))%nat%bool.

Fixpoint lstrip_chars (l : list ascii) : list ascii :=
  match l with
  | [] => []
  | c :: l' => if is_space c then lstrip_chars l' else l
  end.

(** [s.strip()] *)
Definition strip (s : string) : string :=
  string_of_list_ascii
    (rev (lstrip_chars (rev (lstrip_chars (list_ascii_of_string s))))).

(** [s.partition(":")[0]]: what stands before the first colon. *)
Fixpoint before_colon (s : string) : string :=
  match s with
  | EmptyString => EmptyString
  | String c s' =>
      if Ascii.eqb c ":"%char then EmptyString else String c (before_colon s')
  end.

(** [s.endswith(suffix)] and [s[:-len(suffix)]]. *)
Definition endswith (s suffix : string) : bool :=
  let n := String.length s in
  let k := String.length suffix in
  ((k <=? n)%nat && String.eqb (String.substring (n - k) k s) suffix)%bool.

Definition drop_end (k : nat) (s : string) : string :=
  String.substring 0 (String.length s - k) s.

(** [s.encode("utf-8")] for a string of ASCII characters: one byte per
    character, with the character's code. *)
Definition encode (s : string) : list Byte.byte := list_byte_of_string s.

End PyStr.

(** ** WSGI requests *)

(** The WSGI environment of one request, as the server hands it to the
    application: a dictionary, of which these keys are read.  The
    [HTTP_...] variables, one per request header, are kept as the
    dictionary they are part of ([HTTP_HOST], [HTTP_CONNECTION], ...). *)
Record Environ := mkEnviron {
  REQUEST_METHOD : string;
  PATH_INFO : string;
  QUERY_STRING : string;
  SERVER_NAME : string;
  SERVER_PORT : string;
  wsgi_url_scheme : string;
  HTTP_HEADERS : gmap string string;
  wsgi_input : list Byte.byte
}.

(** ** The world, exceptions and the computation monad *)

(** The lines the process writes to its terminal, by kind; their text is
    left out. *)
Inductive LogEntry :=
| ServerBanner                       (* Flask's "Serving Flask app" lines *)
| Startup (host : string) (port : Z) (* Werkzeug's "Running on" lines *)
| BindError (port : Z)               (* the address could not be bound *)
| AccessLine (method path : string) (status : Z)
| Traceback (cls : string).

(** What a Python function of this process could touch: the sockets
    that are listening on the machine, what the process has written to
    its log, and the files it can see. *)
Record World := mkWorld {
  w_listening : list (string * Z);
  w_log : list LogEntry;
  w_files : gmap string (list Byte.byte)
}.

Definition log_entry (e : LogEntry) (w : World) : World :=
  mkWorld (w_listening w) (w_log w ++ [e]) (w_files w).

(** The exceptions that occur on the paths modelled here.  The HTTP
    exceptions of Werkzeug come first, the ones routing raises by name
    and any other by its status code; [PyError] stands for any other
    subclass of [Exception], by class name; [SystemExit] is not an
    [Exception]. *)
Inductive Exn :=
| NotFound
| MethodNotAllowed (valid_methods : gset string)
| RequestRedirect (new_path : string)
| BadHost
| WebsocketMismatch
| HTTPError (code : Z)
| PyError (cls : string)
| SystemExit (code : Z).

Definition is_http_exception (e : Exn) : bool :=
  match e with
  | PyError _ | SystemExit _ => false
  | _ => true
  end.

(** A call returns a value, raises, or does not come back (the server
    loop, which runs until the process is stopped). *)
Inductive Outcome (A : Type) :=
| Return (a : A)
| Raise (e : Exn)
| Blocked.
Arguments Return {A} a.
Arguments Raise {A} e.
Arguments Blocked {A}.

Definition Py (A : Type) : Type := World -> Outcome A * World.

Definition ret {A} (a : A) : Py A := fun w => (Return a, w).
Definition raise {A} (e : Exn) : Py A := fun w => (Raise e, w).
Definition bind {A B} (m : Py A) (k : A -> Py B) : Py B :=
  fun w => match m w with
           | (Return a, w') => k a w'
           | (Raise e, w') => (Raise e, w')
           | (Blocked, w') => (Blocked, w')
           end.
(** [try: m except Exception as e: h(e)]; [SystemExit] passes. *)
Definition try_except {A} (m : Py A) (h : Exn -> Py A) : Py A :=
  fun w => match m w with
           | (Return a, w') => (Return a, w')
           | (Raise (SystemExit c), w') => (Raise (SystemExit c), w')
           | (Raise e, w') => h e w'
           | (Blocked, w') => (Blocked, w')
           end.

Notation "m >>= k" := (bind m k) (at level 58, left associativity).

(** ** Responses and view functions *)

(** A response body is either the bytes the application produced or one
    of Werkzeug's stock pages, whose text is left uninterpreted. *)
Inductive Body :=
| Bytes (b : list Byte.byte)
| StockPage (code : Z).

(** Of the [Location] header of a redirect only the path is kept, as
    the router made it; the URL sent has it quoted, after the scheme and
    the host and before the query. *)
Record Response := mkResponse {
  status_code : Z;
  mimetype : string;
  allow : option (gset string);
  location_path : option string;
  data : Body
}.

(** What a view function may hand back to Flask. *)
Inductive ViewRet :=
| RvNone
| RvStr (s : string)
| RvResponse (r : Response).

(** A Python function used as a view: its [__name__], the identity of
    the function object, and its behaviour when called with keyword
    arguments while a request is being handled.  The request is what
    [flask.request] would let the function read. *)
Record PyFunc := mkPyFunc {
  fn_name : string;
  fn_id : nat;
  fn_call : Environ -> list (string * string) -> Py ViewRet
}.

(** ** Werkzeug: rules and the URL map

    Routing as Werkzeug does it since its matcher became a state machine
    over the slash-separated parts of the path (release 2.2): the map is
    bound to the request (host, scheme, method, path), rules are
    followed part by part, a rule that matches the path but not the
    method is remembered for the 405 response, a rule that matches both
    but is not for this kind of request (HTTP or WebSocket) for the 400
    response, and a path that matches only with one more slash, or with
    its runs of slashes merged, is redirected. *)

Module Werkzeug.

Record Rule := mkRule {
  rule : string;
  endpoint : string;
  methods : gset string;
  websocket : bool;
  provide_automatic_options : bool
}.

(** [Rule.__init__]: the rule must start with a slash; the methods are
    upper-cased and HEAD is added wherever GET is allowed; a rule is for
    HTTP requests unless [websocket=True] is passed. *)
Definition Rule_init (string_ : string) (methods_ : gset string)
           (endpoint_ : string) : Py Rule :=
  if String.prefix "/" string_ then
    let ms : gset string := set_map PyStr.upper methods_ in
    let ms : gset string :=
      if (bool_decide ("HEAD" ∉ ms) && bool_decide ("GET" ∈ ms))%bool
      then ms ∪ {["HEAD"]} else ms in
    ret {| rule := string_; endpoint := endpoint_; methods := ms;
           websocket := false; provide_automatic_options := false |}
  else raise (PyError "ValueError").

(** The parts of a rule, one per slash-separated segment.  The rules of
    this application are made of static segments and one
    [<path:name>] converter; [<name>] is the default string
    converter. *)
Inductive RulePart :=
| Static (s : string)
| StrConv (arg : string)
| PathConv (arg : string).

Definition parse_part (seg : string) : RulePart :=
  if String.prefix "<path:" seg
  then PathConv (String.substring 6 (String.length seg - 7) seg)
  else if String.prefix "<" seg
  then StrConv (String.substring 1 (String.length seg - 2) seg)
  else Static seg.

Definition parse_rule (r : string) : list RulePart :=
  map parse_part (PyStr.split_slash r).

Definition is_line_feed (c : ascii) : bool := Ascii.eqb c "010"%char.

(** The path converter's pattern [[^/].*?]: a first character that is
    no slash, then any characters but a line feed, at which the dot
    stops. *)
Definition path_regex (target : string) : bool :=
  match target with
  | EmptyString => false
  | String c rest =>
      (negb (PyStr.is_slash c)
       && negb (existsb is_line_feed (list_ascii_of_string rest)))%bool
  end.

(** The string converter's pattern [[^/]+], on one segment. *)
Definition string_regex (seg : string) : bool :=
  negb (String.eqb seg "").

(** Following the parts of one rule along the segments of a path.  A
    path converter is final: it takes all the segments that remain. *)
Fixpoint match_parts (ps : list RulePart) (segs : list string)
  : option (list (string * string)) :=
  match ps, segs with
  | [], [] => Some []
  | Static s :: ps', seg :: segs' =>
      if String.eqb s seg then match_parts ps' segs' else None
  | StrConv a :: ps', seg :: segs' =>
      if string_regex seg
      then option_map (cons (a, seg)) (match_parts ps' segs')
      else None
  | PathConv a :: _, _ :: _ =>
      let target := PyStr.join_slash segs in
      if path_regex target then Some [(a, target)] else None
  | _, _ => None
  end.

(** The parts of a rule that ends in a slash, without that last empty
    part: what a path lacking the trailing slash has to match. *)
Definition without_trailing_slash (ps : list RulePart)
  : option (list RulePart) :=
  match rev ps with
  | Static EmptyString :: front => Some (rev front)
  | _ => None
  end.

Inductive Found :=
| FMatch (r : Rule) (values : list (string * string))
| FSlashRequired
| FNone.

(** Is there a rule that would match with one more slash, for this
    method and this kind of request? *)
Fixpoint slash_required (rules : list Rule) (segs : list string)
         (method : string) (ws : bool) : bool :=
  match rules with
  | [] => false
  | r :: rules' =>
      match without_trailing_slash (parse_rule (rule r)) with
      | Some front =>
          match match_parts front segs with
          | Some _ =>
              if (Bool.eqb ws (websocket r)
                  && bool_decide (method ∈ methods r))%bool then true
              else slash_required rules' segs method ws
          | None => slash_required rules' segs method ws
          end
      | None => slash_required rules' segs method ws
      end
  end.

(** What one pass has learnt when it found no rule: the methods of the
    rules that match the path, and whether a rule matched path and
    method but not the kind of request. *)
Record Missed := mkMissed {
  have_match_for : gset string;
  websocket_mismatch : bool
}.

(** One pass of [StateMachineMatcher.match]'s inner [_match] over the
    rules: the first rule matching path, method and kind of request
    wins. *)
Fixpoint match_rules (rules : list Rule) (segs : list string)
         (method : string) (ws : bool) (missed : Missed)
  : option (Rule * list (string * string)) * Missed :=
  match rules with
  | [] => (None, missed)
  | r :: rules' =>
      match match_parts (parse_rule (rule r)) segs with
      | Some values =>
          if negb (bool_decide (method ∈ methods r))
          then match_rules rules' segs method ws
                 (mkMissed (have_match_for missed ∪ methods r)
                           (websocket_mismatch missed))
          else if negb (Bool.eqb (websocket r) ws)
          then match_rules rules' segs method ws
                 (mkMissed (have_match_for missed) true)
          else (Some (r, values), missed)
      | None => match_rules rules' segs method ws missed
      end
  end.

Definition _match (rules : list Rule) (path method : string) (ws : bool)
           (missed : Missed) : Found * Missed :=
  let segs := PyStr.split_slash path in
  match match_rules rules segs method ws missed with
  | (Some (r, values), missed') => (FMatch r values, missed')
  | (None, missed') =>
      if slash_required rules segs method ws then (FSlashRequired, missed')
      else (FNone, missed')
  end.

(** What the matcher reports to [MapAdapter.match]. *)
Inductive MatcherResult :=
| Matched (r : Rule) (values : list (string * string))
| RequestPath (path_info : string)
| NoMatch (missed : Missed).

(** [StateMachineMatcher.match], with the map's defaults
    [strict_slashes=True] and [merge_slashes=True]: a path that only
    matches once its runs of slashes are merged is redirected. *)
Definition matcher_match (rules : list Rule) (path method : string)
           (ws : bool) : MatcherResult :=
  match _match rules path method ws (mkMissed ∅ false) with
  | (FSlashRequired, _) => RequestPath (path ++ "/")
  | (FMatch r values, _) => Matched r values
  | (FNone, missed) =>
      let path' := PyStr.merge_slashes path in
      match _match rules path' method ws missed with
      | (FSlashRequired, _) => RequestPath (path' ++ "/")
      | (FMatch _ _, _) => RequestPath path'
      | (FNone, missed') => NoMatch missed'
      end
  end.

(** [get_host]: the [Host] header, or without one the server's name
    (in brackets if it is an IPv6 address) and port; the standard port
    of the scheme is dropped. *)
Definition get_host (env : Environ) : string :=
  let host :=
    match HTTP_HEADERS env !! "HTTP_HOST" with
    | Some h => h
    | None =>
        let name := SERVER_NAME env in
        let name :=
          if (existsb (Ascii.eqb ":"%char) (list_ascii_of_string name)
              && negb (String.prefix "[" name))%bool
          then "[" ++ name ++ "]" else name in
        name ++ ":" ++ SERVER_PORT env
    end in
  let scheme := wsgi_url_scheme env in
  if ((String.eqb scheme "http" || String.eqb scheme "ws")
      && PyStr.endswith host ":80")%bool
  then PyStr.drop_end 3 host
  else if ((String.eqb scheme "https" || String.eqb scheme "wss")
           && PyStr.endswith host ":443")%bool
  then PyStr.drop_end 4 host
  else host.

Definition header (env : Environ) (key : string) : string :=
  match HTTP_HEADERS env !! key with Some v => v | None => "" end.

(** [Map.bind_to_environ]: a request that asks for an upgrade to the
    WebSocket protocol is bound with the scheme [ws] or [wss] in place
    of its own, and an adapter is for WebSocket requests when its scheme
    is one of these. *)
Definition asks_for_websocket (env : Environ) : bool :=
  (existsb (fun v => String.eqb (PyStr.strip v) "upgrade")
           (PyStr.split_comma (PyStr.lower (header env "HTTP_CONNECTION")))
   && String.eqb (PyStr.lower (header env "HTTP_UPGRADE")) "websocket")%bool.

Definition bound_scheme (env : Environ) : string :=
  if asks_for_websocket env
  then (if String.eqb (wsgi_url_scheme env) "https" then "wss" else "ws")
  else wsgi_url_scheme env.

Definition is_websocket (env : Environ) : bool :=
  (String.eqb (bound_scheme env) "ws"
   || String.eqb (bound_scheme env) "wss")%bool.

(** The name [Map.bind] hands to the IDNA codec: the host in lower case,
    without the port. *)
Definition server_name (env : Environ) : string :=
  PyStr.before_colon (PyStr.lower (get_host env)).

(** The adapter a map is bound to a request with. *)
Record MapAdapter := mkMapAdapter {
  adapter_rules : list Rule;
  adapter_path_info : string;
  default_method : string;
  adapter_websocket : bool
}.

Section Codec.

(** Whether Python's [idna] codec encodes a name ([name.encode("idna")]
    does not raise).  The codec is part of the language's library. *)
Variable idna : string -> bool.

(** [Map.bind_to_environ], then [Map.bind]: a host name the codec
    refuses is a [BadHost]. *)
Definition bind_to_environ (rules : list Rule) (env : Environ)
  : Exn + MapAdapter :=
  if idna (server_name env)
  then inr (mkMapAdapter rules (PATH_INFO env) (REQUEST_METHOD env)
                         (is_websocket env))
  else inl BadHost.

End Codec.

(** [MapAdapter.match(return_rule=True)]: the path is taken with
    exactly one leading slash; a redirect, 405, 400 or 404 is raised
    when no rule is returned. *)
Definition path_part (path_info : string) : string :=
  if String.eqb path_info "" then ""
  else String "/" (PyStr.lstrip_slash path_info).

Definition MapAdapter_match (self : MapAdapter) (method : option string)
  : Exn + Rule * list (string * string) :=
  let method :=
    PyStr.upper (match method with Some m => m | None => default_method self end) in
  match matcher_match (adapter_rules self) (path_part (adapter_path_info self))
                      method (adapter_websocket self) with
  | Matched r values => inr (r, values)
  | RequestPath new_path => inl (RequestRedirect new_path)
  | NoMatch missed =>
      if negb (bool_decide (have_match_for missed = ∅))
      then inl (MethodNotAllowed (have_match_for missed))
      else if websocket_mismatch missed then inl WebsocketMismatch
      else inl NotFound
  end.

(** [MapAdapter.allowed_methods]: match with a method no rule has. *)
Definition allowed_methods (self : MapAdapter) : gset string :=
  match MapAdapter_match self (Some "--") with
  | inl (MethodNotAllowed valid) => valid
  | _ => ∅
  end.

(** [HTTPException.get_response]; for an exception that is no HTTP
    exception, the response of [InternalServerError]. *)
Definition get_response (e : Exn) : Response :=
  match e with
  | NotFound =>
      mkResponse 404 "text/html" None None (StockPage 404)
  | MethodNotAllowed valid =>
      mkResponse 405 "text/html" (Some valid) None (StockPage 405)
  | RequestRedirect new_path =>
      mkResponse 308 "text/html" None (Some new_path) (StockPage 308)
  | BadHost | WebsocketMismatch =>
      mkResponse 400 "text/html" None None (StockPage 400)
  | HTTPError code =>
      mkResponse code "text/html" None None (StockPage code)
  | PyError _ | SystemExit _ =>
      mkResponse 500 "text/html" None None (StockPage 500)
  end.

(** [Response.__call__] with [get_app_iter]: no body is sent for a
    HEAD request or for a status that has none. *)
Definition get_app_iter (environ : Environ) (r : Response) : Body :=
  let status := status_code r in
  if (String.eqb (REQUEST_METHOD environ) "HEAD"
      || ((100 <=? status) && (status <? 200))
      || (status =? 204) || (status =? 304))%bool
  then Bytes []
  else data r.

Definition Response_call (environ : Environ) (r : Response) : Response :=
  mkResponse (status_code r) (mimetype r) (allow r) (location_path r)
             (get_app_iter environ r).

End Werkzeug.

(** ** Flask: the application object and request dispatch *)

Module Flask.
Import Werkzeug.

Record Flask := mkFlask {
  import_name : string;
  static_folder : option string;
  _static_url_path : option string;
  url_map : list Rule;
  view_functions : gmap string PyFunc
}.

Definition has_static_folder (self : Flask) : bool :=
  match static_folder self with Some _ => true | None => false end.

(** The [static_url_path] property: derived from the last component of
    the static folder when not given. *)
Definition static_url_path (self : Flask) : option string :=
  match _static_url_path self with
  | Some p => Some p
  | None =>
      match static_folder self with
      | Some folder =>
          let basename := List.last (PyStr.split_slash folder) "" in
          Some (if String.eqb basename "" then "" else String "/" basename)
      | None => None
      end
  end.

(** [add_url_rule(rule, endpoint, view_func, methods=None)].  Without
    [methods] the rule answers GET; OPTIONS is added and answered by
    Flask itself unless the caller listed it; registering another
    function object under an endpoint that has one is an error. *)
Definition add_url_rule (self : Flask) (rule_ : string)
           (endpoint_ : option string) (view_func : PyFunc)
           (methods_ : option (gset string)) : Py Flask :=
  let endpoint_ :=
    match endpoint_ with Some e => e | None => fn_name view_func end in
  let ms : gset string :=
    match methods_ with Some ms => ms | None => {["GET"]} end in
  let ms : gset string := set_map PyStr.upper ms in
  let automatic := bool_decide ("OPTIONS" ∉ ms) in
  let required_methods : gset string :=
    if automatic then {["OPTIONS"]} else ∅ in
  let ms := ms ∪ required_methods in
  Rule_init rule_ ms endpoint_ >>= fun r =>
  let r := mkRule (rule r) (endpoint r) (methods r) (websocket r) automatic in
  match view_functions self !! endpoint_ with
  | Some old_func =>
      if Nat.eqb (fn_id old_func) (fn_id view_func)
      then ret (mkFlask (import_name self) (static_folder self)
                        (_static_url_path self) (url_map self ++ [r])
                        (<[endpoint_ := view_func]> (view_functions self)))
      else raise (PyError "AssertionError")
  | None =>
      ret (mkFlask (import_name self) (static_folder self)
                   (_static_url_path self) (url_map self ++ [r])
                   (<[endpoint_ := view_func]> (view_functions self)))
  end.

(** The decorator [@self.route(rule)]: registers [f] under its own
    name. *)
Definition route (self : Flask) (rule_ : string) (f : PyFunc) : Py Flask :=
  add_url_rule self rule_ None f None.

Section App.

(** [Flask.send_static_file], the view behind the [static] endpoint:
    it reads the request and the file system under the static folder,
    and what it finds there is not the program's doing.  It is any
    computation. *)
Variable send_static_file : Environ -> list (string * string) -> Py ViewRet.

(** [Flask(import_name)]: the defaults [static_folder="static"] and
    [static_url_path=None]; an application that has a static folder
    serves it under [<static_url_path>/<path:filename>], through a
    function object of its own. *)
Definition Flask_init (import_name_ : string) : Py Flask :=
  let self := mkFlask import_name_ (Some "static") None [] ∅ in
  if has_static_folder self then
    let prefix :=
      match static_url_path self with Some p => p | None => "None" end in
    add_url_rule self (prefix ++ "/<path:filename>") (Some "static")
                 (mkPyFunc "<lambda>" 0 send_static_file) None
  else ret self.

End App.

(** The request object Flask builds when the request context is
    pushed: the upper-cased method, the adapter the URL map was bound
    with, and the outcome of URL matching. *)
Record Request := mkRequest {
  environ : Environ;
  method : string;
  url_adapter : option MapAdapter;
  url_rule : option Rule;
  view_args : list (string * string);
  routing_exception : option Exn
}.

(** [handle_user_exception]: with no handler registered, an HTTP
    exception is returned as the response it describes and anything
    else is raised again. *)
Definition handle_user_exception (e : Exn) : Py ViewRet :=
  if is_http_exception e then ret (RvResponse (get_response e))
  else raise e.

(** [make_response]: a string becomes a 200 response with the encoded
    string as body; [None] is a [TypeError]. *)
Definition make_response (rv : ViewRet) : Py Response :=
  match rv with
  | RvNone => raise (PyError "TypeError")
  | RvStr s => ret (mkResponse 200 "text/html" None None
                               (Bytes (PyStr.encode s)))
  | RvResponse r => ret r
  end.

Definition finalize_request (rv : ViewRet) : Py Response :=
  make_response rv.

Definition exception_class (e : Exn) : string :=
  match e with
  | NotFound => "NotFound"
  | MethodNotAllowed _ => "MethodNotAllowed"
  | RequestRedirect _ => "RequestRedirect"
  | BadHost => "BadHost"
  | WebsocketMismatch => "WebsocketMismatch"
  | HTTPError _ => "HTTPException"
  | PyError cls => cls
  | SystemExit _ => "SystemExit"
  end.

(** [handle_exception]: an exception nobody handled is written to the
    log with its traceback and becomes the 500 response. *)
Definition handle_exception (e : Exn) : Py Response :=
  fun w => (Return (get_response (PyError "InternalServerError")),
            log_entry (Traceback (exception_class e)) w).

(** [WSGIRequestHandler.log_request]: one line per request served. *)
Definition access_line (env : Environ) (r : Response) : LogEntry :=
  AccessLine (REQUEST_METHOD env) (PATH_INFO env) (status_code r).

Definition log_request (env : Environ) (r : Response) : Py unit :=
  fun w => (Return tt, log_entry (access_line env r) w).

Section Requests.

Variable idna : string -> bool.

(** The request context: [create_url_adapter] binds the URL map to the
    request, [match_request] matches; an HTTP exception of either is
    kept for [dispatch_request] to raise.  [Request.method] is the
    method in upper case. *)
Definition match_request (self : Flask) (env : Environ) : Request :=
  let m := PyStr.upper (REQUEST_METHOD env) in
  match bind_to_environ idna (url_map self) env with
  | inl e => mkRequest env m None None [] (Some e)
  | inr adapter =>
      match MapAdapter_match adapter None with
      | inr (r, values) => mkRequest env m (Some adapter) (Some r) values None
      | inl e => mkRequest env m (Some adapter) None [] (Some e)
      end
  end.

(** [make_default_options_response]: an empty 200 response whose
    [Allow] header lists the methods of the rules for this path. *)
Definition make_default_options_response (req : Request) : Response :=
  mkResponse 200 "text/html"
             (Some (match url_adapter req with
                    | Some adapter => allowed_methods adapter
                    | None => ∅
                    end))
             None (Bytes []).

(** [dispatch_request] *)
Definition dispatch_request (self : Flask) (req : Request) : Py ViewRet :=
  match routing_exception req with
  | Some e => raise e
  | None =>
      match url_rule req with
      | None => raise (PyError "AttributeError")
      | Some r =>
          if (provide_automatic_options r
              && String.eqb (method req) "OPTIONS")%bool
          then ret (RvResponse (make_default_options_response req))
          else
            match view_functions self !! endpoint r with
            | Some f => fn_call f (environ req) (view_args req)
            | None => raise (PyError "KeyError")
            end
      end
  end.

(** [full_dispatch_request] *)
Definition full_dispatch_request (self : Flask) (req : Request)
  : Py Response :=
  try_except (dispatch_request self req) handle_user_exception
    >>= finalize_request.

(** [wsgi_app]: push the request context, dispatch, and send the
    response. *)
Definition wsgi_app (self : Flask) (env : Environ) : Py Response :=
  try_except (full_dispatch_request self (match_request self env))
             handle_exception
    >>= fun response => ret (Response_call env response).

(** The development server's loop over the requests that arrive, one
    after the other: each is handed to the application and written to
    the access log with the status of its response. *)
Fixpoint serve (self : Flask) (requests : list Environ)
  : Py (list Response) :=
  match requests with
  | [] => ret []
  | env :: rest =>
      wsgi_app self env >>= fun r =>
      log_request env r >>= fun _ =>
      serve self rest >>= fun rs => ret (r :: rs)
  end.

End Requests.

(** Binding a listening socket fails when the port is taken on the same
    address, or on all addresses by either side. *)
Definition address_in_use (host : string) (port : Z) (w : World) : bool :=
  existsb (fun hp : string * Z =>
             ((snd hp =? port)
              && (String.eqb (fst hp) host || String.eqb (fst hp) "0.0.0.0"
                  || String.eqb host "0.0.0.0"))%bool)
          (w_listening w).

(** [run(host=None, port=None)], 127.0.0.1:5000 unless told otherwise:
    Flask prints its banner, then Werkzeug's [run_simple] binds the
    address.  If that fails the error is printed and the process exits
    with status 1; otherwise the server listens and the call stays in
    its loop ([serve]).  (The guard that makes [run] a no-op under the
    [flask run] command, which loads the module under another name, is
    left out.) *)
Definition run (self : Flask) (host : option string) (port : option Z)
  : Py unit :=
  let host := match host with Some h => h | None => "127.0.0.1" end in
  let port := match port with Some p => p | None => 5000 end in
  fun w =>
    let w := log_entry ServerBanner w in
    if address_in_use host port w
    then (Raise (SystemExit 1), log_entry (BindError port) w)
    else (Blocked,
          log_entry (Startup host port)
                    (mkWorld ((host, port) :: w_listening w) (w_log w)
                             (w_files w))).

End Flask.

(** ** The program: [app.py] *)

Import Werkzeug Flask.

Definition greeting : string :=
  "Hello, I am Siddharth Chitikesi, Roll No: BCD21 ,this is my simple web app deployed with Ansible and Docker!".

(** [def home(): return "..."].  The function takes no argument, a call
    with keyword arguments is a [TypeError]; it does not look at the
    request. *)
Definition home : PyFunc :=
  mkPyFunc "home" 1
    (fun _ kwargs =>
       match kwargs with
       | [] => ret (RvStr greeting)
       | _ :: _ => raise (PyError "TypeError")
       end).

Section Program.

Variable send_static_file : Environ -> list (string * string) -> Py ViewRet.

(** Lines 1 to 6: [app = Flask(__name__)], then [@app.route('/')] on
    [home]. *)
Definition app (__name__ : string) : Py Flask.Flask :=
  Flask_init send_static_file __name__ >>= fun app =>
  route app "/" home.

(** The whole module, run under the name [__name__]: the server is
    started only when the file is the main program. *)
Definition run_module (__name__ : string) : Py Flask.Flask :=
  app __name__ >>= fun app =>
  if String.eqb __name__ "__main__"
  then run app (Some "0.0.0.0") (Some 5000) >>= fun _ => ret app
  else ret app.

End Program.

(** ** The application object, spelled out

    The value the first six lines build, written as a record: the static
    rule [Flask(__name__)] registers and the rule of [home], both for
    HTTP requests with the methods GET, HEAD and OPTIONS.  [app_value]
    below shows that [app] returns exactly this. *)

Definition default_methods : gset string := {[ "GET"; "HEAD"; "OPTIONS" ]}.

Definition static_rule : Rule :=
  mkRule "/static/<path:filename>" "static" default_methods false true.

Definition home_rule : Rule :=
  mkRule "/" "home" default_methods false true.

Definition app_object
           (send_static_file : Environ -> list (string * string) -> Py ViewRet)
           (name : string) : Flask.Flask :=
  mkFlask name (Some "static") None [static_rule; home_rule]
          (<["home" := home]>
             (<["static" := mkPyFunc "<lambda>" 0 send_static_file]> ∅)).

(** The response to a matched [GET /], and Werkzeug's 400 response. *)
Definition greeting_response : Response :=
  mkResponse 200 "text/html" None None (Bytes (PyStr.encode greeting)).

Definition bad_request_response : Response :=
  mkResponse 400 "text/html" None None (StockPage 400).

(** The adapter the URL map of the application is bound to a request
    with, when the host name is accepted. *)
Definition adapter_of (env : Environ) : MapAdapter :=
  mkMapAdapter [static_rule; home_rule] (PATH_INFO env) (REQUEST_METHOD env)
               (is_websocket env).

(** The HTTP exceptions that binding and matching raise. *)
Definition is_routing_exception (e : Exn) : bool :=
  match e with
  | NotFound | MethodNotAllowed _ | RequestRedirect _ | BadHost
  | WebsocketMismatch => true
  | _ => false
  end.

(** A request as the router sees it fit for an HTTP rule: its host name
    is one the codec encodes and it is no WebSocket request. *)
Definition plain_http (idna : string -> bool) (env : Environ) : bool :=
  (idna (server_name env) && negb (is_websocket env))%bool.

(** A name of ASCII characters: the path is decoded before it is
    matched, which leaves such a name as it is. *)
Definition is_ascii_name (s : string) : bool :=
  forallb (fun c => (nat_of_ascii c <? 128)%nat) (list_ascii_of_string s).

(** A name without line feed. *)
Definition no_line_break (s : string) : bool :=
  negb (existsb is_line_feed (list_ascii_of_string s)).

(** ** Worlds, requests and parameters to run the program on *)

(** The codec on ASCII names: every label has 1 to 63 characters, the
    last one may be empty.  Names with other characters are the real
    codec's business and are refused here. *)
Fixpoint idna_ascii_from (s : string) (len : nat) : bool :=
  match s with
  | EmptyString => (len <? 64)%nat
  | String c s' =>
      if Ascii.eqb c "."%char
      then ((0 <? len)%nat && (len <? 64)%nat && idna_ascii_from s' 0)%bool
      else ((nat_of_ascii c <? 128)%nat && idna_ascii_from s' (S len))%bool
  end.

Definition idna_ascii (name : string) : bool := idna_ascii_from name 0.

(** Nothing listening, nothing logged, no file. *)
Definition empty_world : World := mkWorld [] [] ∅.

(** A world in which a server is already listening on port 5000. *)
Definition busy_world : World :=
  mkWorld [("0.0.0.0", 5000)] [ServerBanner; Startup "0.0.0.0" 5000] ∅.

(** A world with one style sheet in the static folder. *)
Definition styled_world : World :=
  mkWorld [("0.0.0.0", 5000)] []
          {[ "style.css" := list_byte_of_string "body{}" ]}.

(** The empty world once the program has been started in it. *)
Definition served_world : World :=
  mkWorld [("0.0.0.0", 5000)] [ServerBanner; Startup "0.0.0.0" 5000] ∅.

(** A static view that finds no file, one that serves the files of the
    world by name, and one that breaks down. *)
Definition no_static_files : Environ -> list (string * string) -> Py ViewRet :=
  fun _ _ => raise NotFound.

Definition files_static_view : Environ -> list (string * string) -> Py ViewRet :=
  fun _ kwargs w =>
    match kwargs with
    | [(k, filename)] =>
        if String.eqb k "filename" then
          match w_files w !! filename with
          | Some content =>
              (Return (RvResponse (mkResponse 200 "text/css" None None
                                              (Bytes content))), w)
          | None => (Raise NotFound, w)
          end
        else (Raise (PyError "TypeError"), w)
    | _ => (Raise (PyError "TypeError"), w)
    end.

Definition broken_static_view : Environ -> list (string * string) -> Py ViewRet :=
  fun _ _ => raise (PyError "OSError").

(** Requests to the server on localhost:5000, with no header, query or
    body unless said otherwise. *)
Definition request (method_ path_ : string) : Environ :=
  mkEnviron method_ path_ "" "localhost" "5000" "http" ∅ [].

Definition get_root : Environ := request "GET" "/".
Definition head_root : Environ := request "HEAD" "/".
Definition options_root : Environ := request "OPTIONS" "/".
Definition post_root : Environ := request "POST" "/".
Definition get_missing : Environ := request "GET" "/missing".
Definition get_empty_path : Environ := request "GET" "".
Definition post_static : Environ := request "POST" "/static/style.css".
Definition get_static : Environ := request "GET" "/static/style.css".
Definition get_root_lowercase : Environ := request "get" "/".

(** [GET /?lang=en] with headers and a body. *)
Definition get_root_noisy : Environ :=
  mkEnviron "GET" "/" "lang=en" "localhost" "5000" "http"
            {[ "HTTP_HOST" := "example.com:5000";
               "HTTP_ACCEPT" := "text/plain" ]}
            (list_byte_of_string "ignored").

(** [GET /] and [HEAD /] asking for an upgrade to the WebSocket
    protocol; they differ from [get_root] and [head_root] in their
    headers only. *)
Definition upgrade_headers : gmap string string :=
  {[ "HTTP_CONNECTION" := "Upgrade"; "HTTP_UPGRADE" := "websocket" ]}.

Definition get_root_upgrade : Environ :=
  mkEnviron "GET" "/" "" "localhost" "5000" "http" upgrade_headers [].

Definition head_root_upgrade : Environ :=
  mkEnviron "HEAD" "/" "" "localhost" "5000" "http" upgrade_headers [].

(** [POST /] with a host name whose first label is empty. *)
Definition post_root_bad_host : Environ :=
  mkEnviron "POST" "/" "" "localhost" "5000" "http"
            {[ "HTTP_HOST" := ".example.com" ]} [].

(** * Properties *)

(** ** Strings *)

Lemma split_slash_nonempty s : PyStr.split_slash s <> [].
Proof.
  destruct s as [|c s]; simpl; [discriminate|].
  destruct (PyStr.is_slash c); [discriminate|].
  destruct (PyStr.split_slash s); discriminate.
Qed.

Lemma is_slash_true c : PyStr.is_slash c = true -> c = "/"%char.
Proof. unfold PyStr.is_slash. apply Ascii.eqb_eq. Qed.

(** Splitting at the slashes loses nothing: joining gives the path back. *)
Lemma join_split s : PyStr.join_slash (PyStr.split_slash s) = s.
Proof.
  induction s as [|c s IH]; simpl; [reflexivity|].
  destruct (PyStr.is_slash c) eqn:Hc.
  - apply is_slash_true in Hc. subst c.
    pose proof (split_slash_nonempty s) as Hne.
    destruct (PyStr.split_slash s) as [|h t]; [congruence|].
    simpl in *. now rewrite IH.
  - pose proof (split_slash_nonempty s) as Hne.
    destruct (PyStr.split_slash s) as [|h t]; [congruence|].
    destruct t as [|h' t']; simpl in *; now rewrite <- IH.
Qed.

Lemma prefix_app p s : String.prefix p s = true -> exists t, s = p ++ t.
Proof.
  revert s. induction p as [|a p IH]; intros s H.
  - exists s. reflexivity.
  - destruct s as [|b s]; simpl in H; [discriminate|].
    destruct (ascii_dec a b) as [->|]; [|discriminate].
    destruct (IH _ H) as [t ->]. exists t. reflexivity.
Qed.

Lemma prefix_nil s : String.prefix "" s = true.
Proof. destruct s; reflexivity. Qed.

Lemma merge_slashes_cons c s :
  PyStr.merge_slashes (String c s)
  = match s with
    | EmptyString => String c EmptyString
    | String d _ =>
        if (PyStr.is_slash c && PyStr.is_slash d)%bool
        then PyStr.merge_slashes s
        else String c (PyStr.merge_slashes s)
    end.
Proof. destruct s; reflexivity. Qed.

Lemma merge_slashes_nonempty c s : PyStr.merge_slashes (String c s) <> "".
Proof.
  revert c. induction s as [|d s IH]; intros c; rewrite merge_slashes_cons.
  - discriminate.
  - destruct (PyStr.is_slash c && PyStr.is_slash d)%bool;
      [apply IH|discriminate].
Qed.

(** A path that starts with a slash still does once merged. *)
Lemma merge_slashes_head s :
  exists r, PyStr.merge_slashes (String "/" s) = String "/" r.
Proof.
  induction s as [|d s IH]; [eexists; reflexivity|].
  rewrite merge_slashes_cons.
  destruct (PyStr.is_slash d) eqn:Hd.
  - apply is_slash_true in Hd. subst d. exact IH.
  - change (PyStr.is_slash "/") with true. cbn [andb]. eexists. reflexivity.
Qed.

Lemma static_path_explicit t :
  "/static/" ++ t
  = String "/" (String "s" (String "t" (String "a" (String "t"
      (String "i" (String "c" (String "/" t))))))).
Proof. reflexivity. Qed.

(** Merging slashes keeps a path under [/static/] there. *)
Lemma merge_slashes_static q :
  String.prefix "/static/" q = true ->
  String.prefix "/static/" (PyStr.merge_slashes q) = true.
Proof.
  intros H. destruct (prefix_app _ _ H) as [t ->].
  rewrite static_path_explicit.
  do 7 (rewrite merge_slashes_cons; cbn [PyStr.is_slash Ascii.eqb andb]).
  change (Ascii.eqb "/" "/") with true. cbv iota.
  destruct (merge_slashes_head t) as [r ->].
  simpl. apply prefix_nil.
Qed.

(** ** The application object *)

Section AppFacts.

Variable sv : Environ -> list (string * string) -> Py ViewRet.

Lemma app_value name w : app sv name w = (Return (app_object sv name), w).
Proof. vm_compute. reflexivity. Qed.

Lemma app_inv name w a w' :
  app sv name w = (Return a, w') -> a = app_object sv name.
Proof. rewrite app_value. congruence. Qed.

End AppFacts.

Lemma in_default_methods m :
  m ∈ default_methods <-> m = "GET" \/ m = "HEAD" \/ m = "OPTIONS".
Proof.
  unfold default_methods. rewrite !elem_of_union, !elem_of_singleton. tauto.
Qed.

(** ** Routing over the two rules of the application *)

Section Routing.

Let rules : list Rule := [static_rule; home_rule].

Let static_parts : list RulePart :=
  [Static ""; Static "static"; PathConv "filename"].
Let home_parts : list RulePart := [Static ""; Static ""].

Lemma parse_static_rule : parse_rule (rule static_rule) = static_parts.
Proof. reflexivity. Qed.

Lemma parse_home_rule : parse_rule (rule home_rule) = home_parts.
Proof. reflexivity. Qed.

Ltac case_eqb :=
  repeat match goal with
         | |- context [String.eqb ?a ?b] => destruct (String.eqb_spec a b)
         end.

(** Which paths the three part lists accept. *)
Lemma home_parts_path segs v :
  match_parts home_parts segs = Some v ->
  PyStr.join_slash segs = "/" /\ v = [].
Proof.
  unfold home_parts.
  destruct segs as [|s0 [|s1 [|s2 rest]]]; cbn [match_parts];
    case_eqb; try discriminate.
  subst. intros [= <-]. split; reflexivity.
Qed.

Lemma static_parts_path segs v :
  match_parts static_parts segs = Some v ->
  String.prefix "/static/" (PyStr.join_slash segs) = true.
Proof.
  unfold static_parts.
  destruct segs as [|s0 [|s1 [|s2 rest]]]; cbn [match_parts];
    case_eqb; try discriminate.
  subst. intros _. simpl. apply prefix_nil.
Qed.

Lemma slash_front_path segs v :
  match_parts [Static ""] segs = Some v -> PyStr.join_slash segs = "".
Proof.
  destruct segs as [|s0 [|s1 rest]]; cbn [match_parts];
    case_eqb; try discriminate.
  subst. reflexivity.
Qed.

Lemma home_parts_none q :
  q <> "/" -> match_parts home_parts (PyStr.split_slash q) = None.
Proof.
  intros Hq. destruct (match_parts home_parts (PyStr.split_slash q)) eqn:E;
    [|reflexivity].
  apply home_parts_path in E as [E _]. rewrite join_split in E. congruence.
Qed.

Lemma static_parts_none q :
  String.prefix "/static/" q = false ->
  match_parts static_parts (PyStr.split_slash q) = None.
Proof.
  intros Hq. destruct (match_parts static_parts (PyStr.split_slash q)) eqn:E;
    [|reflexivity].
  apply static_parts_path in E. rewrite join_split in E. congruence.
Qed.

Lemma slash_front_none q :
  q <> "" -> match_parts [Static ""] (PyStr.split_slash q) = None.
Proof.
  intros Hq. destruct (match_parts [Static ""] (PyStr.split_slash q)) eqn:E;
    [|reflexivity].
  apply slash_front_path in E. rewrite join_split in E. congruence.
Qed.

(** The one pass over the two rules, unfolded. *)
Lemma _match_rules q m ws missed :
  _match rules q m ws missed
  = let segs := PyStr.split_slash q in
    let after_static :=
      match match_parts static_parts segs with
      | Some values =>
          if negb (bool_decide (m ∈ default_methods))
          then inl (mkMissed (have_match_for missed ∪ default_methods)
                             (websocket_mismatch missed))
          else if negb (Bool.eqb false ws)
          then inl (mkMissed (have_match_for missed) true)
          else inr (static_rule, values)
      | None => inl missed
      end in
    let after_home :=
      match after_static with
      | inr found => inr found
      | inl missed1 =>
          match match_parts home_parts segs with
          | Some values =>
              if negb (bool_decide (m ∈ default_methods))
              then inl (mkMissed (have_match_for missed1 ∪ default_methods)
                                 (websocket_mismatch missed1))
              else if negb (Bool.eqb false ws)
              then inl (mkMissed (have_match_for missed1) true)
              else inr (home_rule, values)
          | None => inl missed1
          end
      end in
    match after_home with
    | inr (r, values) => (FMatch r values, missed)
    | inl missed2 =>
        match match_parts [Static ""] segs with
        | Some _ =>
            if (Bool.eqb ws false && bool_decide (m ∈ default_methods))%bool
            then (FSlashRequired, missed2) else (FNone, missed2)
        | None => (FNone, missed2)
        end
    end.
Proof.
  unfold _match, rules. cbn [match_rules slash_required].
  rewrite parse_static_rule, parse_home_rule.
  change (without_trailing_slash static_parts) with (@None (list RulePart)).
  change (without_trailing_slash home_parts) with (Some [Static ""]).
  change (methods static_rule) with default_methods.
  change (methods home_rule) with default_methods.
  change (websocket static_rule) with false.
  change (websocket home_rule) with false.
  cbv zeta iota.
  destruct (match_parts static_parts (PyStr.split_slash q));
    destruct (match_parts home_parts (PyStr.split_slash q));
    destruct (bool_decide (m ∈ default_methods));
    destruct ws;
    destruct (match_parts [Static ""] (PyStr.split_slash q));
    reflexivity.
Qed.

(** A path that is neither empty, nor [/], nor under [/static/] is
    matched by no rule, whatever the method and the kind of request,
    and is not one slash short of a rule either. *)
Lemma _match_unrouted q m ws missed :
  q <> "" -> q <> "/" -> String.prefix "/static/" q = false ->
  _match rules q m ws missed = (FNone, missed).
Proof.
  intros Hne Hroot Hstatic. rewrite _match_rules. cbv zeta.
  rewrite (static_parts_none q Hstatic), (home_parts_none q Hroot),
    (slash_front_none q Hne).
  reflexivity.
Qed.

Lemma matcher_match_unrouted p m ws :
  p <> "" ->
  PyStr.merge_slashes (path_part p) <> "/" ->
  String.prefix "/static/" (PyStr.merge_slashes (path_part p)) = false ->
  matcher_match rules (path_part p) m ws = NoMatch (mkMissed ∅ false).
Proof.
  intros Hp Hroot Hstatic.
  assert (Hq : exists s, path_part p = String "/" s).
  { unfold path_part. destruct (String.eqb_spec p ""); [congruence|].
    eexists; reflexivity. }
  destruct Hq as [s Hq]. rewrite Hq in *.
  assert (H1 : String "/" s <> "/").
  { intros E. apply Hroot. rewrite E. reflexivity. }
  assert (H2 : String.prefix "/static/" (String "/" s) = false).
  { destruct (String.prefix "/static/" (String "/" s)) eqn:E; [|reflexivity].
    apply merge_slashes_static in E. congruence. }
  unfold matcher_match.
  rewrite _match_unrouted by (assumption || discriminate).
  rewrite _match_unrouted
    by (assumption || apply merge_slashes_nonempty).
  reflexivity.
Qed.

(** On [/], a method the rule does not have is refused with the list
    of those it has, whatever the kind of request. *)
Lemma _match_root_refused m ws missed :
  m ∉ default_methods ->
  _match rules "/" m ws missed
  = (FNone, mkMissed (have_match_for missed ∪ default_methods)
                     (websocket_mismatch missed)).
Proof.
  intros Hm. rewrite _match_rules. cbv zeta.
  change (PyStr.split_slash "/") with ["" ; ""].
  change (match_parts static_parts [""; ""])
    with (@None (list (string * string))).
  change (match_parts home_parts [""; ""])
    with (Some (@nil (string * string))).
  change (match_parts [Static ""] [""; ""])
    with (@None (list (string * string))).
  cbv iota. rewrite (bool_decide_eq_false_2 _ Hm). reflexivity.
Qed.

Lemma matcher_match_root_refused m ws :
  m ∉ default_methods ->
  exists missed,
    matcher_match rules "/" m ws = NoMatch missed /\
    have_match_for missed = default_methods.
Proof.
  intros Hm. unfold matcher_match.
  rewrite _match_root_refused by assumption.
  change (PyStr.merge_slashes "/") with "/".
  rewrite _match_root_refused by assumption.
  eexists. split; [reflexivity|]. cbn [have_match_for]. set_solver.
Qed.

(** Away from [/static/], the one rule a request can be matched with
    is that of [home], on the path [/], for one of its methods and for
    an HTTP request. *)
Lemma _match_unstatic q m ws missed r v missed' :
  String.prefix "/static/" q = false ->
  _match rules q m ws missed = (FMatch r v, missed') ->
  r = home_rule /\ v = [] /\ q = "/" /\ m ∈ default_methods /\ ws = false.
Proof.
  intros Hstatic H. rewrite _match_rules in H. cbv zeta in H.
  rewrite (static_parts_none q Hstatic) in H.
  destruct (match_parts home_parts (PyStr.split_slash q)) eqn:Eh.
  - apply home_parts_path in Eh as [Eq Ev]. rewrite join_split in Eq.
    destruct (bool_decide_reflect (m ∈ default_methods)) as [Hin|Hout];
      cbn [negb] in H.
    + destruct ws; cbn [negb Bool.eqb andb] in H.
      * destruct (match_parts [Static ""] (PyStr.split_slash q));
          discriminate.
      * inversion H; subst. auto.
    + destruct (match_parts [Static ""] (PyStr.split_slash q));
        [destruct (Bool.eqb ws false && false)%bool|]; discriminate.
  - destruct (match_parts [Static ""] (PyStr.split_slash q));
      [destruct (_ && _)%bool|]; discriminate.
Qed.

Lemma matcher_match_unstatic q m ws :
  String.prefix "/static/" q = false ->
  (matcher_match rules q m ws = Matched home_rule [] /\
   q = "/" /\ m ∈ default_methods /\ ws = false) \/
  (exists p', matcher_match rules q m ws = RequestPath p') \/
  (exists missed, matcher_match rules q m ws = NoMatch missed).
Proof.
  intros Hstatic. unfold matcher_match.
  destruct (_match rules q m ws (mkMissed ∅ false)) as [[r v| |] missed] eqn:E1.
  - destruct (_match_unstatic _ _ _ _ _ _ _ Hstatic E1)
      as (-> & -> & Hq & Hm & Hws).
    left. auto.
  - right. left. eauto.
  - destruct (_match rules (PyStr.merge_slashes q) m ws missed)
      as [[r v| |] missed'] eqn:E2; [right; left; eauto ..| right; right; eauto].
Qed.

(** *** The static rule *)

Lemma split_static t :
  PyStr.split_slash ("/static/" ++ t) = "" :: "static" :: PyStr.split_slash t.
Proof. rewrite static_path_explicit. reflexivity. Qed.

Lemma path_part_static t : path_part ("/static/" ++ t) = "/static/" ++ t.
Proof. rewrite static_path_explicit. reflexivity. Qed.

Lemma static_parts_match t :
  path_regex t = true ->
  match_parts static_parts ("" :: "static" :: PyStr.split_slash t)
  = Some [("filename", t)].
Proof.
  intros Ht. unfold static_parts. cbn [match_parts].
  change (String.eqb "" "") with true.
  change (String.eqb "static" "static") with true. cbv iota.
  pose proof (join_split t) as Hj.
  destruct (PyStr.split_slash t) as [|s0 rest] eqn:E.
  - now destruct (split_slash_nonempty t).
  - rewrite Hj, Ht. reflexivity.
Qed.

Lemma matcher_match_static_found t m :
  path_regex t = true -> m ∈ default_methods ->
  matcher_match rules ("/static/" ++ t) m false
  = Matched static_rule [("filename", t)].
Proof.
  intros Ht Hm. unfold matcher_match. rewrite _match_rules. cbv zeta.
  rewrite split_static, static_parts_match by assumption.
  rewrite (bool_decide_eq_true_2 _ Hm). reflexivity.
Qed.

(** Under [/static/], a method the rule does not have is refused with
    the list of those it has. *)
Lemma _match_static_refused_first t m ws missed :
  path_regex t = true -> m ∉ default_methods ->
  _match rules ("/static/" ++ t) m ws missed
  = (FNone, mkMissed (have_match_for missed ∪ default_methods)
                     (websocket_mismatch missed)).
Proof.
  intros Ht Hm. rewrite _match_rules. cbv zeta.
  rewrite split_static, static_parts_match by assumption.
  rewrite (bool_decide_eq_false_2 _ Hm). reflexivity.
Qed.

Lemma _match_static_refused q m ws missed :
  String.prefix "/static/" q = true -> m ∉ default_methods ->
  exists missed',
    _match rules q m ws missed = (FNone, missed') /\
    (have_match_for missed' = have_match_for missed \/
     have_match_for missed' = have_match_for missed ∪ default_methods).
Proof.
  intros Hq Hm.
  assert (Hroot : q <> "/") by (intros E; rewrite E in Hq; discriminate).
  assert (Hne : q <> "") by (intros E; rewrite E in Hq; discriminate).
  rewrite _match_rules. cbv zeta.
  rewrite (home_parts_none _ Hroot), (slash_front_none _ Hne).
  rewrite (bool_decide_eq_false_2 _ Hm). cbn [negb].
  destruct (match_parts static_parts (PyStr.split_slash q));
    (eexists; split; [reflexivity|]); cbn [have_match_for]; auto.
Qed.

Lemma matcher_match_static_refused t m ws :
  path_regex t = true -> m ∉ default_methods ->
  exists missed,
    matcher_match rules ("/static/" ++ t) m ws = NoMatch missed /\
    have_match_for missed = default_methods.
Proof.
  intros Ht Hm.
  assert (Hq : String.prefix "/static/" (PyStr.merge_slashes ("/static/" ++ t))
               = true).
  { apply merge_slashes_static. rewrite static_path_explicit. simpl.
    apply prefix_nil. }
  unfold matcher_match.
  rewrite _match_static_refused_first by assumption.
  destruct (_match_static_refused _ _ ws
              (mkMissed (have_match_for (mkMissed ∅ false) ∪ default_methods)
                        (websocket_mismatch (mkMissed ∅ false))) Hq Hm)
    as (missed' & -> & Hhave).
  exists missed'. split; [reflexivity|].
  cbn [have_match_for] in Hhave. destruct Hhave as [-> | ->]; set_solver.
Qed.

End Routing.

(** ** Requests to the application *)

Section Dispatch.

Variable idna : string -> bool.
Variable sv : Environ -> list (string * string) -> Py ViewRet.
Variable name : string.

Let the_app := app_object sv name.
Let rules : list Rule := [static_rule; home_rule].

Lemma MapAdapter_match_eq env :
  MapAdapter_match (adapter_of env) None
  = match matcher_match rules (path_part (PATH_INFO env))
                        (PyStr.upper (REQUEST_METHOD env))
                        (is_websocket env) with
    | Matched r values => inr (r, values)
    | RequestPath new_path => inl (RequestRedirect new_path)
    | NoMatch missed =>
        if negb (bool_decide (have_match_for missed = ∅))
        then inl (MethodNotAllowed (have_match_for missed))
        else if websocket_mismatch missed then inl WebsocketMismatch
        else inl NotFound
    end.
Proof. reflexivity. Qed.

(** What routing raises is one of its HTTP exceptions. *)
Lemma MapAdapter_match_routing env e :
  MapAdapter_match (adapter_of env) None = inl e ->
  is_routing_exception e = true.
Proof.
  rewrite MapAdapter_match_eq.
  destruct (matcher_match _ _ _ _) as [r v|p|missed]; [discriminate| |].
  - intros [= <-]. reflexivity.
  - destruct (negb _); [intros [= <-]; reflexivity|].
    destruct (websocket_mismatch missed); intros [= <-]; reflexivity.
Qed.

Lemma routing_exception_status e :
  is_routing_exception e = true ->
  (status_code (get_response e) = 308 \/ status_code (get_response e) = 400 \/
   status_code (get_response e) = 404 \/ status_code (get_response e) = 405) /\
  data (get_response e) = StockPage (status_code (get_response e)).
Proof. destruct e; try discriminate; cbn; auto 10. Qed.

(** A host name the codec refuses: 400, before any rule is tried. *)
Lemma wsgi_app_bad_host env w :
  idna (server_name env) = false ->
  wsgi_app idna the_app env w
  = (Return (Response_call env bad_request_response), w).
Proof.
  intros Hhost. unfold wsgi_app, match_request, bind_to_environ.
  rewrite Hhost. reflexivity.
Qed.

(** A request the URL map answers with an HTTP exception gets that
    exception's response, and the world is left alone. *)
Lemma wsgi_app_routing_exception env w e :
  idna (server_name env) = true ->
  MapAdapter_match (adapter_of env) None = inl e ->
  wsgi_app idna the_app env w
  = (Return (Response_call env (get_response e)), w).
Proof.
  intros Hhost Hm. pose proof (MapAdapter_match_routing env e Hm) as He.
  unfold wsgi_app, match_request, bind_to_environ. rewrite Hhost.
  change (mkMapAdapter (url_map the_app) (PATH_INFO env) (REQUEST_METHOD env)
                       (is_websocket env)) with (adapter_of env).
  rewrite Hm.
  unfold full_dispatch_request, dispatch_request.
  cbn [routing_exception]. unfold try_except, raise, bind, handle_user_exception.
  destruct e; try discriminate He; reflexivity.
Qed.

(** A request matched with the rule of [home] that is not an OPTIONS
    request runs [home]. *)
Lemma wsgi_app_home env w :
  idna (server_name env) = true ->
  MapAdapter_match (adapter_of env) None = inr (home_rule, []) ->
  PyStr.upper (REQUEST_METHOD env) <> "OPTIONS" ->
  wsgi_app idna the_app env w = (Return (Response_call env greeting_response), w).
Proof.
  intros Hhost Hm Hopt.
  unfold wsgi_app, match_request, bind_to_environ. rewrite Hhost.
  change (mkMapAdapter (url_map the_app) (PATH_INFO env) (REQUEST_METHOD env)
                       (is_websocket env)) with (adapter_of env).
  rewrite Hm.
  unfold full_dispatch_request, dispatch_request.
  cbn [routing_exception url_rule provide_automatic_options home_rule
       view_args method andb endpoint Flask.environ].
  destruct (String.eqb_spec (PyStr.upper (REQUEST_METHOD env)) "OPTIONS");
    [contradiction|].
  change (view_functions the_app !! "home") with (Some home).
  reflexivity.
Qed.

(** An OPTIONS request matched with a rule is answered by Flask with
    the methods allowed on the path. *)
Lemma wsgi_app_automatic_options env w r values :
  idna (server_name env) = true ->
  MapAdapter_match (adapter_of env) None = inr (r, values) ->
  provide_automatic_options r = true ->
  PyStr.upper (REQUEST_METHOD env) = "OPTIONS" ->
  allowed_methods (adapter_of env) = default_methods ->
  wsgi_app idna the_app env w
  = (Return (mkResponse 200 "text/html" (Some default_methods) None
                        (Bytes [])), w).
Proof.
  intros Hhost Hm Hauto Hopt Hallowed.
  unfold wsgi_app, match_request, bind_to_environ. rewrite Hhost.
  change (mkMapAdapter (url_map the_app) (PATH_INFO env) (REQUEST_METHOD env)
                       (is_websocket env)) with (adapter_of env).
  rewrite Hm.
  unfold full_dispatch_request, dispatch_request.
  cbn [routing_exception url_rule view_args method Flask.environ].
  rewrite Hauto, Hopt. change (String.eqb "OPTIONS" "OPTIONS") with true.
  cbn [andb]. unfold make_default_options_response. cbn [url_adapter].
  rewrite Hallowed.
  unfold try_except, bind, ret, finalize_request, make_response,
    Response_call, get_app_iter.
  cbn [status_code mimetype allow location_path data].
  destruct (String.eqb (REQUEST_METHOD env) "HEAD"); reflexivity.
Qed.

Lemma allowed_methods_root env :
  path_part (PATH_INFO env) = "/" ->
  allowed_methods (adapter_of env) = default_methods.
Proof.
  intros Hp. unfold allowed_methods, MapAdapter_match, adapter_of.
  cbn [adapter_rules adapter_path_info adapter_websocket]. rewrite Hp.
  assert (Hm : PyStr.upper "--" ∉ default_methods)
    by (vm_compute; intros H; discriminate H).
  destruct (matcher_match_root_refused _ (is_websocket env) Hm)
    as (missed & -> & Hhave).
  rewrite Hhave. reflexivity.
Qed.

Lemma allowed_methods_static env t :
  PATH_INFO env = "/static/" ++ t -> path_regex t = true ->
  allowed_methods (adapter_of env) = default_methods.
Proof.
  intros Hp Ht. unfold allowed_methods, MapAdapter_match, adapter_of.
  cbn [adapter_rules adapter_path_info adapter_websocket].
  rewrite Hp, path_part_static.
  assert (Hm : PyStr.upper "--" ∉ default_methods)
    by (vm_compute; intros H; discriminate H).
  destruct (matcher_match_static_refused t _ (is_websocket env) Ht Hm)
    as (missed & -> & Hhave).
  rewrite Hhave. reflexivity.
Qed.

End Dispatch.

(** ** Requests to the root and to the static prefix *)

Section RootAndStatic.

Variable idna : string -> bool.
Variable sv : Environ -> list (string * string) -> Py ViewRet.
Variable name : string.

Let the_app := app_object sv name.
Let rules : list Rule := [static_rule; home_rule].

(** On [/], for a method of the rule: the rule of [home] for an HTTP
    request, a mismatch for a WebSocket one. *)
Lemma MapAdapter_match_root env :
  PATH_INFO env = "/" ->
  PyStr.upper (REQUEST_METHOD env) ∈ default_methods ->
  MapAdapter_match (adapter_of env) None
  = if is_websocket env then inl WebsocketMismatch else inr (home_rule, []).
Proof.
  intros Hp Hm. rewrite MapAdapter_match_eq, Hp.
  change (path_part "/") with "/". unfold matcher_match.
  rewrite !_match_rules. cbv zeta.
  change (PyStr.split_slash "/") with ["" ; ""].
  change (match_parts [Static ""; Static "static"; PathConv "filename"] [""; ""])
    with (@None (list (string * string))).
  change (match_parts [Static ""; Static ""] [""; ""])
    with (Some (@nil (string * string))).
  change (match_parts [Static ""] [""; ""])
    with (@None (list (string * string))).
  cbv iota. rewrite (bool_decide_eq_true_2 _ Hm).
  destruct (is_websocket env); [|reflexivity].
  cbn [negb Bool.eqb]. cbv iota.
  change (PyStr.merge_slashes "/") with "/".
  rewrite _match_rules. cbv zeta.
  change (PyStr.split_slash "/") with ["" ; ""].
  change (match_parts [Static ""; Static "static"; PathConv "filename"] [""; ""])
    with (@None (list (string * string))).
  change (match_parts [Static ""; Static ""] [""; ""])
    with (Some (@nil (string * string))).
  change (match_parts [Static ""] [""; ""])
    with (@None (list (string * string))).
  cbv iota. rewrite (bool_decide_eq_true_2 _ Hm). reflexivity.
Qed.

(** [GET /] and [HEAD /] of a plain HTTP request run [home]. *)
Lemma wsgi_app_root_home env w :
  plain_http idna env = true ->
  PATH_INFO env = "/" ->
  PyStr.upper (REQUEST_METHOD env) = "GET" \/
  PyStr.upper (REQUEST_METHOD env) = "HEAD" ->
  wsgi_app idna the_app env w
  = (Return (Response_call env greeting_response), w).
Proof.
  unfold plain_http. intros [Hhost Hws]%andb_true_iff Hp Hm.
  apply negb_true_iff in Hws.
  apply wsgi_app_home; [assumption| |].
  - rewrite MapAdapter_match_root, Hws; [reflexivity|assumption|].
    apply in_default_methods. tauto.
  - destruct Hm as [-> | ->]; discriminate.
Qed.

(** [OPTIONS /] of a plain HTTP request is answered by Flask. *)
Lemma wsgi_app_root_options env w :
  plain_http idna env = true ->
  PATH_INFO env = "/" ->
  PyStr.upper (REQUEST_METHOD env) = "OPTIONS" ->
  wsgi_app idna the_app env w
  = (Return (mkResponse 200 "text/html" (Some default_methods) None
                        (Bytes [])), w).
Proof.
  unfold plain_http. intros [Hhost Hws]%andb_true_iff Hp Hm.
  apply negb_true_iff in Hws.
  apply (wsgi_app_automatic_options idna sv name env w home_rule []);
    try assumption; try reflexivity.
  - rewrite MapAdapter_match_root, Hws; [reflexivity|assumption|].
    apply in_default_methods. tauto.
  - apply allowed_methods_root. rewrite Hp. reflexivity.
Qed.

(** A request to [/] with a method of the rule that is not a plain HTTP
    request is a bad request. *)
Lemma wsgi_app_root_not_plain env w :
  plain_http idna env = false ->
  PATH_INFO env = "/" ->
  PyStr.upper (REQUEST_METHOD env) ∈ default_methods ->
  wsgi_app idna the_app env w
  = (Return (Response_call env bad_request_response), w).
Proof.
  unfold plain_http. intros Hplain Hp Hm.
  destruct (idna (server_name env)) eqn:Hhost.
  - cbn [andb] in Hplain. apply negb_false_iff in Hplain.
    apply (wsgi_app_routing_exception idna sv name env w WebsocketMismatch);
      [assumption|].
    rewrite MapAdapter_match_root, Hplain by assumption. reflexivity.
  - now apply wsgi_app_bad_host.
Qed.

(** For a request whose method is spelt GET, sending keeps the body. *)
Lemma Response_call_get env r :
  PyStr.upper (REQUEST_METHOD env) = "GET" ->
  status_code r = 200 \/ status_code r = 400 ->
  Response_call env r = r.
Proof.
  intros Hm Hs. destruct r as [s mt al loc d]. cbn in Hs.
  unfold Response_call, get_app_iter.
  cbn [status_code mimetype allow location_path data].
  destruct (String.eqb_spec (REQUEST_METHOD env) "HEAD") as [E|_].
  - rewrite E in Hm. discriminate Hm.
  - destruct Hs as [-> | ->]; reflexivity.
Qed.

(** [GET /] in full: the greeting for a plain HTTP request, the 400
    page otherwise; the world is not looked at and not changed. *)
Lemma wsgi_app_get_root env w :
  PyStr.upper (REQUEST_METHOD env) = "GET" -> PATH_INFO env = "/" ->
  wsgi_app idna the_app env w
  = (Return (if plain_http idna env then greeting_response
             else bad_request_response), w).
Proof.
  intros Hm Hp. destruct (plain_http idna env) eqn:Hplain.
  - rewrite wsgi_app_root_home by auto.
    rewrite Response_call_get; auto.
  - rewrite wsgi_app_root_not_plain; auto.
    + rewrite Response_call_get; auto.
    + rewrite Hm. apply in_default_methods. auto.
Qed.

(** *** Under the static prefix *)

Lemma MapAdapter_match_static_found env t :
  PATH_INFO env = "/static/" ++ t ->
  path_regex t = true ->
  is_websocket env = false ->
  PyStr.upper (REQUEST_METHOD env) ∈ default_methods ->
  MapAdapter_match (adapter_of env) None
  = inr (static_rule, [("filename", t)]).
Proof.
  intros Hp Ht Hws Hm. rewrite MapAdapter_match_eq, Hp, path_part_static, Hws.
  rewrite matcher_match_static_found by assumption. reflexivity.
Qed.

Lemma MapAdapter_match_static_refused env t :
  PATH_INFO env = "/static/" ++ t ->
  path_regex t = true ->
  PyStr.upper (REQUEST_METHOD env) ∉ default_methods ->
  MapAdapter_match (adapter_of env) None
  = inl (MethodNotAllowed default_methods).
Proof.
  intros Hp Ht Hm. rewrite MapAdapter_match_eq, Hp, path_part_static.
  destruct (matcher_match_static_refused t _ (is_websocket env) Ht Hm)
    as (missed & -> & Hhave).
  rewrite Hhave. reflexivity.
Qed.

Lemma MapAdapter_match_root_refused env :
  PATH_INFO env = "/" ->
  PyStr.upper (REQUEST_METHOD env) ∉ default_methods ->
  MapAdapter_match (adapter_of env) None
  = inl (MethodNotAllowed default_methods).
Proof.
  intros Hp Hm. rewrite MapAdapter_match_eq, Hp.
  change (path_part "/") with "/".
  destruct (matcher_match_root_refused _ (is_websocket env) Hm)
    as (missed & -> & Hhave).
  rewrite Hhave. reflexivity.
Qed.

Lemma MapAdapter_match_unrouted env :
  PATH_INFO env <> "" ->
  PyStr.merge_slashes (path_part (PATH_INFO env)) <> "/" ->
  String.prefix "/static/" (PyStr.merge_slashes (path_part (PATH_INFO env)))
  = false ->
  MapAdapter_match (adapter_of env) None = inl NotFound.
Proof.
  intros Hne Hroot Hstatic. rewrite MapAdapter_match_eq.
  rewrite matcher_match_unrouted by assumption. reflexivity.
Qed.

(** A GET or HEAD request under [/static/] runs the static view on the
    rest of the path, and the usual handling of what it returns or
    raises follows. *)
Lemma wsgi_app_static_view env w t :
  plain_http idna env = true ->
  PATH_INFO env = "/static/" ++ t ->
  path_regex t = true ->
  PyStr.upper (REQUEST_METHOD env) = "GET" \/
  PyStr.upper (REQUEST_METHOD env) = "HEAD" ->
  wsgi_app idna the_app env w
  = (try_except
       (try_except (sv env [("filename", t)]) handle_user_exception
          >>= finalize_request)
       handle_exception
       >>= fun response => ret (Response_call env response)) w.
Proof.
  unfold plain_http. intros [Hhost Hws]%andb_true_iff Hp Ht Hm.
  apply negb_true_iff in Hws.
  unfold wsgi_app, match_request, bind_to_environ. rewrite Hhost.
  change (mkMapAdapter (url_map the_app) (PATH_INFO env) (REQUEST_METHOD env)
                       (is_websocket env)) with (adapter_of env).
  rewrite (MapAdapter_match_static_found env t Hp Ht Hws)
    by (apply in_default_methods; tauto).
  unfold full_dispatch_request, dispatch_request.
  cbn [routing_exception url_rule provide_automatic_options static_rule
       view_args method andb endpoint Flask.environ].
  change (view_functions the_app !! "static")
    with (Some (mkPyFunc "<lambda>" 0 sv)).
  destruct Hm as [-> | ->]; reflexivity.
Qed.

Lemma wsgi_app_static_options env w t :
  plain_http idna env = true ->
  PATH_INFO env = "/static/" ++ t ->
  path_regex t = true ->
  PyStr.upper (REQUEST_METHOD env) = "OPTIONS" ->
  wsgi_app idna the_app env w
  = (Return (mkResponse 200 "text/html" (Some default_methods) None
                        (Bytes [])), w).
Proof.
  unfold plain_http. intros [Hhost Hws]%andb_true_iff Hp Ht Hm.
  apply negb_true_iff in Hws.
  apply (wsgi_app_automatic_options idna sv name env w static_rule
           [("filename", t)]); try assumption; try reflexivity.
  - apply MapAdapter_match_static_found; try assumption.
    apply in_default_methods. tauto.
  - now apply (allowed_methods_static env t).
Qed.

(** *** Away from the static prefix *)

(** A request whose path is not under [/static/] is answered without a
    look at the world: by [home], by Flask's OPTIONS response, or with
    the page of one of routing's HTTP exceptions. *)
Lemma wsgi_app_unstatic env :
  String.prefix "/static/" (path_part (PATH_INFO env)) = false ->
  exists r,
    (forall w, wsgi_app idna the_app env w = (Return r, w)) /\
    ((r = Response_call env greeting_response /\
      path_part (PATH_INFO env) = "/" /\
      (PyStr.upper (REQUEST_METHOD env) = "GET" \/
       PyStr.upper (REQUEST_METHOD env) = "HEAD")) \/
     (r = mkResponse 200 "text/html" (Some default_methods) None (Bytes []) /\
      path_part (PATH_INFO env) = "/" /\
      PyStr.upper (REQUEST_METHOD env) = "OPTIONS") \/
     (exists e, r = Response_call env (get_response e) /\
                is_routing_exception e = true)).
Proof.
  intros Hstatic.
  destruct (idna (server_name env)) eqn:Hhost.
  2:{ eexists. split; [intros w; now apply wsgi_app_bad_host|].
      right. right. exists BadHost. split; reflexivity. }
  destruct (MapAdapter_match (adapter_of env) None) as [e|[r v]] eqn:Hm.
  { eexists. split;
      [intros w; exact (wsgi_app_routing_exception idna sv name env w e Hhost Hm)|].
    right. right. exists e. split; [reflexivity|].
    now apply (MapAdapter_match_routing env). }
  rewrite MapAdapter_match_eq in Hm.
  destruct (matcher_match_unstatic _ (PyStr.upper (REQUEST_METHOD env))
              (is_websocket env) Hstatic)
    as [(Hmm & Hq & Hin & Hws) | [[p' Hmm] | [missed Hmm]]];
    unfold rules in Hm; rewrite Hmm in Hm.
  - inversion Hm; subst r v. clear Hm.
    assert (Hmatch : MapAdapter_match (adapter_of env) None
                     = inr (home_rule, [])).
    { rewrite MapAdapter_match_eq. unfold rules. rewrite Hmm. reflexivity. }
    destruct (String.eqb_spec (PyStr.upper (REQUEST_METHOD env)) "OPTIONS")
      as [Ho|Ho].
    + eexists. split.
      * intros w.
        apply (wsgi_app_automatic_options idna sv name env w home_rule []);
          try assumption; try reflexivity.
        now apply allowed_methods_root.
      * right. left. auto.
    + eexists. split; [intros w; now apply wsgi_app_home|].
      left. split; [reflexivity|]. split; [assumption|].
      apply in_default_methods in Hin. tauto.
  - discriminate Hm.
  - destruct (negb _); [discriminate|].
    destruct (websocket_mismatch missed); discriminate.
Qed.

End RootAndStatic.

(** ** The server loop on requests to the root *)

Section ServeRoot.

Variable idna : string -> bool.
Variable sv : Environ -> list (string * string) -> Py ViewRet.
Variable name : string.

Lemma serve_get_root env n :
  PyStr.upper (REQUEST_METHOD env) = "GET" -> PATH_INFO env = "/" ->
  forall w,
    fst (serve idna (app_object sv name) (repeat env n) w)
    = Return (repeat (if plain_http idna env then greeting_response
                      else bad_request_response) n).
Proof.
  intros Hm Hp. induction n as [|n IH]; intros w; [reflexivity|].
  cbn [repeat serve]. unfold bind at 1.
  rewrite (wsgi_app_get_root idna sv name env w Hm Hp).
  unfold bind at 1, log_request. unfold bind.
  specialize (IH (log_entry
                    (access_line env (if plain_http idna env
                                      then greeting_response
                                      else bad_request_response)) w)).
  destruct (serve idna (app_object sv name) (repeat env n) _) as [[rs|e|] w2];
    cbn [fst] in IH; try discriminate IH.
  inversion IH; subst. reflexivity.
Qed.

End ServeRoot.

(** * The claims *)

(** C1, as the specification states it, fails: a GET request to [/]
    that asks for an upgrade to the WebSocket protocol matches no HTTP
    rule and is answered 400 with the stock page. *)
Lemma upgrade_get_root_400 :
  REQUEST_METHOD get_root_upgrade = "GET" /\
  PATH_INFO get_root_upgrade = "/" /\
  app no_static_files "app" empty_world
  = (Return (app_object no_static_files "app"), empty_world) /\
  exists r,
    wsgi_app idna_ascii (app_object no_static_files "app") get_root_upgrade
             empty_world
    = (Return r, empty_world) /\
    status_code r = 400 /\ status_code r <> 200 /\
    data r <> Bytes (PyStr.encode greeting).
Proof.
  split; [reflexivity|]. split; [reflexivity|]. split; [reflexivity|].
  exists bad_request_response. split; [vm_compute; reflexivity|].
  repeat split; discriminate.
Qed.

(** C1, amended.  Whichever way the module was loaded, the application
    answers every GET request to [/] that is no WebSocket request
    and whose host name the IDNA codec encodes with status 200 and a
    body that is, byte for byte, the greeting string of the source. *)
Theorem get_root_greeting idna sv name w0 a w1 env w :
  app sv name w0 = (Return a, w1) ->
  idna (server_name env) = true ->
  is_websocket env = false ->
  REQUEST_METHOD env = "GET" ->
  PATH_INFO env = "/" ->
  exists r w',
    wsgi_app idna a env w = (Return r, w') /\
    status_code r = 200 /\
    data r = Bytes (list_byte_of_string
      "Hello, I am Siddharth Chitikesi, Roll No: BCD21 ,this is my simple web app deployed with Ansible and Docker!").
Proof.
  intros Happ Hhost Hws Hm Hp. apply app_inv in Happ. subst a.
  exists greeting_response, w. split.
  - rewrite wsgi_app_get_root by (rewrite ?Hm; auto).
    unfold plain_http. rewrite Hhost, Hws. reflexivity.
  - split; reflexivity.
Qed.

Lemma get_root_greeting_witness :
  exists r w',
    wsgi_app idna_ascii (app_object no_static_files "__main__")
             get_root_noisy busy_world
    = (Return r, w') /\
    status_code r = 200 /\
    data r = Bytes (list_byte_of_string
      "Hello, I am Siddharth Chitikesi, Roll No: BCD21 ,this is my simple web app deployed with Ansible and Docker!").
Proof.
  apply (get_root_greeting idna_ascii no_static_files "__main__" empty_world
           (app_object no_static_files "__main__") empty_world
           get_root_noisy busy_world); reflexivity.
Defined.

(** C2.  The root handler is deterministic and idempotent: two
    invocations on the same [GET /] request, in whatever two states of the
    world, produce one and the same response, and a run of [n] such
    requests produces [n] copies of it. *)
Theorem root_handler_deterministic idna sv name w0 a w1 env w w' :
  app sv name w0 = (Return a, w1) ->
  REQUEST_METHOD env = "GET" ->
  PATH_INFO env = "/" ->
  exists r,
    fst (wsgi_app idna a env w) = Return r /\
    fst (wsgi_app idna a env w') = Return r /\
    forall n, fst (serve idna a (repeat env n) w) = Return (repeat r n).
Proof.
  intros Happ Hm Hp. apply app_inv in Happ. subst a.
  assert (Hup : PyStr.upper (REQUEST_METHOD env) = "GET")
    by (rewrite Hm; reflexivity).
  exists (if plain_http idna env then greeting_response
          else bad_request_response).
  repeat split.
  - now rewrite wsgi_app_get_root.
  - now rewrite wsgi_app_get_root.
  - intros n. now apply serve_get_root.
Qed.

Lemma root_handler_deterministic_witness :
  exists r,
    fst (wsgi_app idna_ascii (app_object no_static_files "app") get_root
                  empty_world)
    = Return r /\
    fst (wsgi_app idna_ascii (app_object no_static_files "app") get_root
                  busy_world)
    = Return r /\
    forall n,
      fst (serve idna_ascii (app_object no_static_files "app")
                 (repeat get_root n) empty_world)
      = Return (repeat r n).
Proof.
  apply (root_handler_deterministic idna_ascii no_static_files "app"
           empty_world (app_object no_static_files "app") empty_world
           get_root empty_world busy_world); reflexivity.
Defined.

(** C3, as the specification states it, fails: the application object
    also carries Flask's static rule, so a POST under [/static/] is
    refused with 405, not 404. *)
Lemma post_static_not_404 :
  PATH_INFO post_static <> "/" /\
  app no_static_files "app" empty_world
  = (Return (app_object no_static_files "app"), empty_world) /\
  exists r,
    wsgi_app idna_ascii (app_object no_static_files "app") post_static
             empty_world
    = (Return r, empty_world) /\
    status_code r = 405 /\ status_code r <> 404.
Proof.
  split; [discriminate|]. split; [reflexivity|].
  eexists. split; [vm_compute; reflexivity|].
  split; [reflexivity|discriminate].
Qed.

(** C3, amended.  A request whose host name the IDNA codec encodes and
    whose path is not empty and, as the router reads it (one leading
    slash, runs of slashes merged), is neither [/] nor under [/static/]
    is answered with 404, whatever its method and its other headers;
    [GET /missing] is one of them. *)
Theorem unrouted_path_404 idna sv name w0 a w1 env w :
  app sv name w0 = (Return a, w1) ->
  idna (server_name env) = true ->
  PATH_INFO env <> "" ->
  PyStr.merge_slashes (path_part (PATH_INFO env)) <> "/" ->
  String.prefix "/static/" (PyStr.merge_slashes (path_part (PATH_INFO env)))
  = false ->
  exists r,
    wsgi_app idna a env w = (Return r, w) /\ status_code r = 404.
Proof.
  intros Happ Hhost Hne Hroot Hstatic. apply app_inv in Happ. subst a.
  eexists. split.
  - apply wsgi_app_routing_exception; [assumption|].
    now apply MapAdapter_match_unrouted.
  - reflexivity.
Qed.

Lemma unrouted_path_404_witness :
  exists r,
    wsgi_app idna_ascii (app_object no_static_files "app") get_missing
             empty_world
    = (Return r, empty_world) /\ status_code r = 404.
Proof.
  apply (unrouted_path_404 idna_ascii no_static_files "app" empty_world
           (app_object no_static_files "app") empty_world
           get_missing empty_world);
    [reflexivity | reflexivity | discriminate | discriminate | reflexivity].
Defined.

(** C4, as the specification states it, fails: HEAD is not GET, and a
    HEAD request to [/] is answered with 200, neither 405 nor 404. *)
Lemma head_root_not_refused :
  REQUEST_METHOD head_root <> "GET" /\
  PATH_INFO head_root = "/" /\
  exists r,
    wsgi_app idna_ascii (app_object no_static_files "app") head_root
             empty_world
    = (Return r, empty_world) /\
    status_code r = 200 /\ status_code r <> 405 /\ status_code r <> 404.
Proof.
  split; [discriminate|]. split; [reflexivity|].
  eexists. split; [vm_compute; reflexivity|].
  repeat split; discriminate.
Qed.

(** C4, amended.  A request to [/] whose host name the IDNA codec
    encodes and whose method, in upper case, is none of GET, HEAD and
    OPTIONS is refused with 405 and told the three methods the rule
    allows; [POST /] is one of them. *)
Theorem root_other_method_405 idna sv name w0 a w1 env w :
  app sv name w0 = (Return a, w1) ->
  idna (server_name env) = true ->
  PATH_INFO env = "/" ->
  PyStr.upper (REQUEST_METHOD env) <> "GET" ->
  PyStr.upper (REQUEST_METHOD env) <> "HEAD" ->
  PyStr.upper (REQUEST_METHOD env) <> "OPTIONS" ->
  exists r,
    wsgi_app idna a env w = (Return r, w) /\
    status_code r = 405 /\
    allow r = Some {[ "GET"; "HEAD"; "OPTIONS" ]}.
Proof.
  intros Happ Hhost Hp Hget Hhead Hopt. apply app_inv in Happ. subst a.
  eexists. split.
  - apply wsgi_app_routing_exception; [assumption|].
    apply MapAdapter_match_root_refused; [assumption|].
    rewrite in_default_methods. tauto.
  - split; reflexivity.
Qed.

Lemma root_other_method_405_witness :
  exists r,
    wsgi_app idna_ascii (app_object no_static_files "app") post_root
             empty_world
    = (Return r, empty_world) /\
    status_code r = 405 /\
    allow r = Some {[ "GET"; "HEAD"; "OPTIONS" ]}.
Proof.
  apply (root_other_method_405 idna_ascii no_static_files "app" empty_world
           (app_object no_static_files "app") empty_world
           post_root empty_world);
    [reflexivity | reflexivity | reflexivity
     | discriminate | discriminate | discriminate].
Defined.

(** C5, as the specification states it, fails: two GET requests to [/]
    that differ in their headers only, one of them asking for an
    upgrade to the WebSocket protocol, get different responses. *)
Lemma headers_change_get_root :
  REQUEST_METHOD get_root = REQUEST_METHOD get_root_upgrade /\
  PATH_INFO get_root = PATH_INFO get_root_upgrade /\
  QUERY_STRING get_root = QUERY_STRING get_root_upgrade /\
  wsgi_input get_root = wsgi_input get_root_upgrade /\
  REQUEST_METHOD get_root = "GET" /\ PATH_INFO get_root = "/" /\
  wsgi_app idna_ascii (app_object no_static_files "app") get_root empty_world
  <> wsgi_app idna_ascii (app_object no_static_files "app") get_root_upgrade
              empty_world.
Proof.
  repeat (split; [reflexivity|]).
  vm_compute. discriminate.
Qed.

(** C5, amended.  The response to [GET /] does not depend on the query
    string, the body, or the headers beyond what the router reads from
    them: two GET requests to [/] that are no WebSocket requests and
    whose host names the IDNA codec encodes get equal responses and
    leave equal worlds. *)
Theorem get_root_noninterference idna sv name w0 a w1 env1 env2 w :
  app sv name w0 = (Return a, w1) ->
  REQUEST_METHOD env1 = "GET" -> PATH_INFO env1 = "/" ->
  REQUEST_METHOD env2 = "GET" -> PATH_INFO env2 = "/" ->
  idna (server_name env1) = true -> is_websocket env1 = false ->
  idna (server_name env2) = true -> is_websocket env2 = false ->
  wsgi_app idna a env1 w = wsgi_app idna a env2 w.
Proof.
  intros Happ Hm1 Hp1 Hm2 Hp2 Hh1 Hw1 Hh2 Hw2.
  apply app_inv in Happ. subst a.
  rewrite !wsgi_app_get_root by (rewrite ?Hm1, ?Hm2; auto).
  unfold plain_http. rewrite Hh1, Hw1, Hh2, Hw2. reflexivity.
Qed.

Lemma get_root_noninterference_witness :
  wsgi_app idna_ascii (app_object no_static_files "app") get_root busy_world
  = wsgi_app idna_ascii (app_object no_static_files "app") get_root_noisy
             busy_world.
Proof.
  apply (get_root_noninterference idna_ascii no_static_files "app"
           empty_world (app_object no_static_files "app") empty_world
           get_root get_root_noisy busy_world); reflexivity.
Defined.

(** C6.  Handling [GET /] has no side effect: the call of [home], on
    whatever request, and the whole handling of the request leave the
    world (sockets, log, files) exactly as it was. *)
Theorem get_root_no_side_effect idna sv name w0 a w1 env w :
  app sv name w0 = (Return a, w1) ->
  REQUEST_METHOD env = "GET" ->
  PATH_INFO env = "/" ->
  (forall request, snd (fn_call home request [] w) = w) /\
  snd (wsgi_app idna a env w) = w.
Proof.
  intros Happ Hm Hp. apply app_inv in Happ. subst a.
  split; [reflexivity|].
  rewrite wsgi_app_get_root by (rewrite ?Hm; auto). reflexivity.
Qed.

Lemma get_root_no_side_effect_witness :
  (forall request, snd (fn_call home request [] busy_world) = busy_world) /\
  snd (wsgi_app idna_ascii (app_object no_static_files "__main__")
                get_root_noisy busy_world) = busy_world.
Proof.
  apply (get_root_no_side_effect idna_ascii no_static_files "__main__"
           empty_world (app_object no_static_files "__main__") empty_world
           get_root_noisy busy_world); reflexivity.
Defined.




(** C10.  Loaded under any other name than [__main__], the module does
    not start the server: it returns the application with the rule and
    the view of [home] registered and leaves the world, its listening
    sockets included, unchanged. *)
Theorem import_does_not_start_server sv name w :
  name <> "__main__" ->
  exists a,
    run_module sv name w = (Return a, w) /\
    home_rule ∈ url_map a /\
    view_functions a !! "home" = Some home.
Proof.
  intros Hname. exists (app_object sv name).
  unfold run_module, bind. rewrite app_value.
  destruct (String.eqb_spec name "__main__") as [E|_]; [contradiction|].
  split; [reflexivity|]. split.
  - unfold app_object. cbn [url_map]. apply list_elem_of_In.
    right. left. reflexivity.
  - reflexivity.
Qed.

Lemma import_does_not_start_server_witness :
  "app" <> "__main__" /\
  exists a,
    run_module no_static_files "app" busy_world = (Return a, busy_world) /\
    home_rule ∈ url_map a /\
    view_functions a !! "home" = Some home.
Proof.
  assert (H : "app" <> "__main__") by discriminate.
  split; [exact H|].
  exact (import_does_not_start_server no_static_files "app" busy_world H).
Defined.

(** C8, as the specification states it, fails: a HEAD request to [/]
    that asks for an upgrade to the WebSocket protocol matches the path
    and the method of the rule but not its kind, and is answered 400. *)
Lemma upgrade_head_root_400 :
  REQUEST_METHOD head_root_upgrade = "HEAD" /\
  PATH_INFO head_root_upgrade = "/" /\
  exists r,
    wsgi_app idna_ascii (app_object no_static_files "app") head_root_upgrade
             empty_world
    = (Return r, empty_world) /\
    status_code r = 400 /\ status_code r <> 200.
Proof.
  split; [reflexivity|]. split; [reflexivity|].
  eexists. split; [vm_compute; reflexivity|].
  split; [reflexivity|discriminate].
Qed.

(** C8, amended.  The route names no methods, so Flask and Werkzeug give
    its rule the methods GET, HEAD and OPTIONS, and a HEAD or OPTIONS
    request to [/] that is no WebSocket request and whose host name
    the IDNA codec encodes is answered with status 200, not 405 or
    404. *)
Theorem head_options_root_ok idna sv name w0 a w1 env w :
  app sv name w0 = (Return a, w1) ->
  idna (server_name env) = true ->
  is_websocket env = false ->
  PATH_INFO env = "/" ->
  REQUEST_METHOD env = "HEAD" \/ REQUEST_METHOD env = "OPTIONS" ->
  mkRule "/" "home" {[ "GET"; "HEAD"; "OPTIONS" ]} false true ∈ url_map a /\
  exists r w',
    wsgi_app idna a env w = (Return r, w') /\ status_code r = 200.
Proof.
  intros Happ Hhost Hws Hp Hm. apply app_inv in Happ. subst a.
  assert (Hplain : plain_http idna env = true)
    by (unfold plain_http; rewrite Hhost, Hws; reflexivity).
  split.
  - apply list_elem_of_In. right. left. reflexivity.
  - destruct Hm as [Hm|Hm].
    + eexists _, w. split.
      * apply wsgi_app_root_home; [assumption..|]. rewrite Hm. auto.
      * reflexivity.
    + eexists _, w. split.
      * apply wsgi_app_root_options; [assumption..|]. rewrite Hm. reflexivity.
      * reflexivity.
Qed.

Lemma head_options_root_ok_witness :
  (mkRule "/" "home" {[ "GET"; "HEAD"; "OPTIONS" ]} false true
     ∈ url_map (app_object no_static_files "app") /\
   exists r w',
     wsgi_app idna_ascii (app_object no_static_files "app") head_root
              empty_world
     = (Return r, w') /\ status_code r = 200) /\
  (mkRule "/" "home" {[ "GET"; "HEAD"; "OPTIONS" ]} false true
     ∈ url_map (app_object no_static_files "app") /\
   exists r w',
     wsgi_app idna_ascii (app_object no_static_files "app") options_root
              empty_world
     = (Return r, w') /\ status_code r = 200).
Proof.
  split.
  - apply (head_options_root_ok idna_ascii no_static_files "app" empty_world
             (app_object no_static_files "app") empty_world
             head_root empty_world);
      [reflexivity | reflexivity | reflexivity | reflexivity
       | left; reflexivity].
  - apply (head_options_root_ok idna_ascii no_static_files "app" empty_world
             (app_object no_static_files "app") empty_world
             options_root empty_world);
      [reflexivity | reflexivity | reflexivity | reflexivity
       | right; reflexivity].
Defined.

(** C9.  The handler is total and never raises: called as Flask calls
    it, on whatever request, [home] returns the constant string in every
    world, and a [GET /] request is always answered, never with the 500
    response. *)
Theorem home_total_no_500 idna sv name w0 a w1 env w :
  app sv name w0 = (Return a, w1) ->
  REQUEST_METHOD env = "GET" ->
  PATH_INFO env = "/" ->
  (forall request,
      fn_call home request [] w = (Return (RvStr greeting), w)) /\
  exists r w',
    wsgi_app idna a env w = (Return r, w') /\ status_code r <> 500.
Proof.
  intros Happ Hm Hp. apply app_inv in Happ. subst a.
  split; [reflexivity|].
  eexists _, w. split.
  - apply wsgi_app_get_root; [rewrite Hm; reflexivity|assumption].
  - destruct (plain_http idna env); discriminate.
Qed.

Lemma home_total_no_500_witness :
  (forall request,
      fn_call home request [] busy_world
      = (Return (RvStr greeting), busy_world)) /\
  exists r w',
    wsgi_app idna_ascii (app_object no_static_files "app") get_root
             busy_world
    = (Return r, w') /\ status_code r <> 500.
Proof.
  apply (home_total_no_500 idna_ascii no_static_files "app" empty_world
           (app_object no_static_files "app") empty_world
           get_root busy_world); reflexivity.
Defined.

(** * Further properties of the program *)

Lemma log_entry_app w e l :
  mkWorld (w_listening (log_entry e w)) (w_log (log_entry e w) ++ l)
          (w_files (log_entry e w))
  = mkWorld (w_listening w) (w_log w ++ e :: l) (w_files w).
Proof. unfold log_entry. cbn. now rewrite <- app_assoc. Qed.

(** X1.  Lines 1 to 6 never raise, under any module name and in any
    world, and leave the world as it was; the application they build
    has exactly two rules, Flask's static rule and the rule of [home],
    both for HTTP requests with the methods GET, HEAD and OPTIONS, and
    every rule has its view function, the two endpoints [static] and
    [home] being all there are. *)
Theorem module_builds_two_routes sv name w :
  exists a,
    app sv name w = (Return a, w) /\
    map rule (url_map a) = ["/static/<path:filename>"; "/"] /\
    (forall r, r ∈ url_map a ->
               methods r = {[ "GET"; "HEAD"; "OPTIONS" ]} /\
               websocket r = false /\
               is_Some (view_functions a !! endpoint r)) /\
    dom (view_functions a) = {[ "static"; "home" ]}.
Proof.
  exists (app_object sv name). split; [apply app_value|].
  split; [reflexivity|]. split.
  - intros r Hr. cbn [app_object url_map] in Hr.
    apply list_elem_of_In in Hr. destruct Hr as [<-|[<-|[]]].
    + split; [reflexivity|]. split; [reflexivity|]. eexists. reflexivity.
    + split; [reflexivity|]. split; [reflexivity|]. eexists. reflexivity.
  - unfold app_object. cbn [view_functions].
    rewrite !dom_insert_L, dom_empty_L.
    apply set_eq. intros x.
    rewrite !elem_of_union, !elem_of_singleton, elem_of_empty. tauto.
Qed.

(** X2.  A request whose path is not under [/static/] gets a response
    that does not depend on the state of the world and leaves it as it
    was; its status is 200, 308, 400, 404 or 405, never 500. *)
Theorem unstatic_request_status idna sv name w0 a w1 env :
  app sv name w0 = (Return a, w1) ->
  String.prefix "/static/" (path_part (PATH_INFO env)) = false ->
  exists r,
    (forall w, wsgi_app idna a env w = (Return r, w)) /\
    (status_code r = 200 \/ status_code r = 308 \/ status_code r = 400 \/
     status_code r = 404 \/ status_code r = 405).
Proof.
  intros Happ Hstatic. apply app_inv in Happ. subst a.
  destruct (wsgi_app_unstatic idna sv name env Hstatic)
    as (r & Hr & [(-> & _) | [(-> & _) | (e & -> & He)]]);
    eexists; (split; [exact Hr|]).
  - left. reflexivity.
  - left. reflexivity.
  - destruct e; try discriminate He; cbn; auto 10.
Qed.

Lemma unstatic_request_status_witness :
  exists r,
    (forall w,
        wsgi_app idna_ascii (app_object no_static_files "app")
                 post_root_bad_host w
        = (Return r, w)) /\
    (status_code r = 200 \/ status_code r = 308 \/ status_code r = 400 \/
     status_code r = 404 \/ status_code r = 405).
Proof.
  apply (unstatic_request_status idna_ascii no_static_files "app" empty_world
           (app_object no_static_files "app") empty_world
           post_root_bad_host);
    reflexivity.
Defined.

(** X3.  The application keeps no state between requests: the server
    answers a run of requests, none under [/static/], request by request
    with what each would get on its own in any world; it writes one
    access line per request to the log, in order, and touches neither
    the listening sockets nor the files. *)
Theorem serve_stateless idna sv name w0 a w1 requests w :
  app sv name w0 = (Return a, w1) ->
  Forall (fun env =>
            String.prefix "/static/" (path_part (PATH_INFO env)) = false)
         requests ->
  exists rs,
    serve idna a requests w
    = (Return rs,
       mkWorld (w_listening w)
               (w_log w ++ zip_with access_line requests rs)
               (w_files w)) /\
    Forall2 (fun env r => forall w', wsgi_app idna a env w' = (Return r, w'))
            requests rs.
Proof.
  intros Happ Hall. apply app_inv in Happ. subst a. revert w.
  induction Hall as [|env requests Henv Hall IH]; intros w.
  - exists []. split; [|constructor].
    cbn. rewrite app_nil_r. now destruct w.
  - destruct (wsgi_app_unstatic idna sv name env Henv) as (r & Hr & _).
    destruct (IH (log_entry (access_line env r) w)) as (rs & Hserve & Hrs).
    exists (r :: rs). split; [|constructor; assumption].
    cbn [serve]. unfold bind at 1. rewrite Hr.
    unfold bind at 1, log_request. unfold bind at 1. rewrite Hserve.
    unfold ret. cbn [zip_with]. now rewrite log_entry_app.
Qed.

Lemma serve_stateless_witness :
  exists rs,
    serve idna_ascii (app_object no_static_files "app")
          [get_root; post_root; get_missing; get_root_upgrade] busy_world
    = (Return rs,
       mkWorld (w_listening busy_world)
               (w_log busy_world
                  ++ zip_with access_line
                       [get_root; post_root; get_missing; get_root_upgrade] rs)
               (w_files busy_world)) /\
    Forall2 (fun env r =>
               forall w',
                 wsgi_app idna_ascii (app_object no_static_files "app") env w'
                 = (Return r, w'))
            [get_root; post_root; get_missing; get_root_upgrade] rs.
Proof.
  apply (serve_stateless idna_ascii no_static_files "app" empty_world
           (app_object no_static_files "app") empty_world
           [get_root; post_root; get_missing; get_root_upgrade] busy_world);
    [reflexivity | repeat constructor].
Defined.

(** X4.  The method is read without regard to case: a request to [/]
    whose method is GET in any spelling, that is no WebSocket
    request and whose host name the codec encodes, gets the greeting,
    with status 200 and the world unchanged. *)
Theorem get_any_case_greeting idna sv name w0 a w1 env w :
  app sv name w0 = (Return a, w1) ->
  idna (server_name env) = true ->
  is_websocket env = false ->
  PyStr.upper (REQUEST_METHOD env) = "GET" ->
  PATH_INFO env = "/" ->
  wsgi_app idna a env w
  = (Return (mkResponse 200 "text/html" None None
                        (Bytes (PyStr.encode greeting))), w).
Proof.
  intros Happ Hhost Hws Hm Hp. apply app_inv in Happ. subst a.
  rewrite wsgi_app_get_root by assumption.
  unfold plain_http. rewrite Hhost, Hws. reflexivity.
Qed.

Lemma get_any_case_greeting_witness :
  wsgi_app idna_ascii (app_object no_static_files "app") get_root_lowercase
           busy_world
  = (Return (mkResponse 200 "text/html" None None
                        (Bytes (PyStr.encode greeting))), busy_world).
Proof.
  apply (get_any_case_greeting idna_ascii no_static_files "app" empty_world
           (app_object no_static_files "app") empty_world
           get_root_lowercase busy_world); reflexivity.
Defined.

(** X5.  A HEAD request to [/] that is no WebSocket request and
    whose host name the codec encodes is answered as the GET request
    with the same path, query, server, headers and body is, with the
    same status and type, but without the bytes of the greeting. *)
Theorem head_root_is_get_without_body idna sv name w0 a w1 env w :
  app sv name w0 = (Return a, w1) ->
  idna (server_name env) = true ->
  is_websocket env = false ->
  REQUEST_METHOD env = "HEAD" ->
  PATH_INFO env = "/" ->
  exists r g,
    wsgi_app idna a env w = (Return r, w) /\
    wsgi_app idna a
             (mkEnviron "GET" (PATH_INFO env) (QUERY_STRING env)
                        (SERVER_NAME env) (SERVER_PORT env)
                        (wsgi_url_scheme env) (HTTP_HEADERS env)
                        (wsgi_input env)) w
    = (Return g, w) /\
    status_code r = status_code g /\
    mimetype r = mimetype g /\
    data r = Bytes [] /\
    data g = Bytes (PyStr.encode greeting).
Proof.
  intros Happ Hhost Hws Hm Hp. apply app_inv in Happ. subst a.
  exists (mkResponse 200 "text/html" None None (Bytes [])), greeting_response.
  split.
  - rewrite wsgi_app_root_home; [|unfold plain_http; now rewrite Hhost, Hws
                                  |assumption|rewrite Hm; auto].
    unfold Response_call, get_app_iter. rewrite Hm. reflexivity.
  - split; [|repeat split].
    rewrite wsgi_app_get_root by (cbn [REQUEST_METHOD PATH_INFO]; auto).
    replace (plain_http idna _) with true; [reflexivity|].
    symmetry. unfold plain_http.
    change (server_name (mkEnviron _ _ _ _ _ _ _ _)) with (server_name env).
    change (is_websocket (mkEnviron _ _ _ _ _ _ _ _)) with (is_websocket env).
    now rewrite Hhost, Hws.
Qed.

Lemma head_root_is_get_without_body_witness :
  exists r g,
    wsgi_app idna_ascii (app_object no_static_files "app") head_root busy_world
    = (Return r, busy_world) /\
    wsgi_app idna_ascii (app_object no_static_files "app")
             (mkEnviron "GET" (PATH_INFO head_root) (QUERY_STRING head_root)
                        (SERVER_NAME head_root) (SERVER_PORT head_root)
                        (wsgi_url_scheme head_root) (HTTP_HEADERS head_root)
                        (wsgi_input head_root))
             busy_world
    = (Return g, busy_world) /\
    status_code r = status_code g /\
    mimetype r = mimetype g /\
    data r = Bytes [] /\
    data g = Bytes (PyStr.encode greeting).
Proof.
  apply (head_root_is_get_without_body idna_ascii no_static_files "app"
           empty_world (app_object no_static_files "app") empty_world
           head_root busy_world); reflexivity.
Defined.

(** X6.  An OPTIONS request to [/], in any spelling of the method, that
    is no WebSocket request and whose host name the codec encodes
    is answered by Flask itself: status 200, no body, and the methods
    GET, HEAD and OPTIONS in the [Allow] header; the world is
    unchanged. *)
Theorem options_root_allow idna sv name w0 a w1 env w :
  app sv name w0 = (Return a, w1) ->
  idna (server_name env) = true ->
  is_websocket env = false ->
  PyStr.upper (REQUEST_METHOD env) = "OPTIONS" ->
  PATH_INFO env = "/" ->
  wsgi_app idna a env w
  = (Return (mkResponse 200 "text/html"
                        (Some {[ "GET"; "HEAD"; "OPTIONS" ]}) None
                        (Bytes [])), w).
Proof.
  intros Happ Hhost Hws Hm Hp. apply app_inv in Happ. subst a.
  apply wsgi_app_root_options; try assumption.
  unfold plain_http. now rewrite Hhost, Hws.
Qed.

Lemma options_root_allow_witness :
  wsgi_app idna_ascii (app_object no_static_files "app") options_root
           busy_world
  = (Return (mkResponse 200 "text/html"
                        (Some {[ "GET"; "HEAD"; "OPTIONS" ]}) None
                        (Bytes [])), busy_world).
Proof.
  apply (options_root_allow idna_ascii no_static_files "app" empty_world
           (app_object no_static_files "app") empty_world
           options_root busy_world); reflexivity.
Defined.

(** X7.  Under [/static/], only GET and HEAD reach the static view.
    Whatever that view would do, a request with another method to
    [/static/<name>] that is no WebSocket request and whose host
    name the codec encodes leaves the world as it was and is told the
    methods GET, HEAD and OPTIONS: with status 200 and no body for
    OPTIONS, with status 405 for every other method. *)
Theorem static_view_only_get_head idna sv name w0 a w1 env w t :
  app sv name w0 = (Return a, w1) ->
  idna (server_name env) = true ->
  is_websocket env = false ->
  PATH_INFO env = "/static/" ++ t ->
  path_regex t = true ->
  no_line_break t = true ->
  PyStr.upper (REQUEST_METHOD env) <> "GET" ->
  PyStr.upper (REQUEST_METHOD env) <> "HEAD" ->
  exists r,
    wsgi_app idna a env w = (Return r, w) /\
    allow r = Some {[ "GET"; "HEAD"; "OPTIONS" ]} /\
    ((PyStr.upper (REQUEST_METHOD env) = "OPTIONS" /\
      status_code r = 200 /\ data r = Bytes []) \/
     (PyStr.upper (REQUEST_METHOD env) <> "OPTIONS" /\
      status_code r = 405)).
Proof.
  intros Happ Hhost Hws Hp Ht _ Hget Hhead. apply app_inv in Happ. subst a.
  destruct (String.eqb_spec (PyStr.upper (REQUEST_METHOD env)) "OPTIONS")
    as [Hopt|Hopt].
  - eexists. split.
    + apply (wsgi_app_static_options idna sv name env w t); try assumption.
      unfold plain_http. now rewrite Hhost, Hws.
    + split; [reflexivity|]. left. auto.
  - eexists. split.
    + apply wsgi_app_routing_exception; [assumption|].
      apply (MapAdapter_match_static_refused env t); [assumption..|].
      rewrite in_default_methods. tauto.
    + split; [reflexivity|]. right. split; [assumption|reflexivity].
Qed.

Lemma static_view_only_get_head_witness :
  exists r,
    wsgi_app idna_ascii (app_object broken_static_view "app") post_static
             styled_world
    = (Return r, styled_world) /\
    allow r = Some {[ "GET"; "HEAD"; "OPTIONS" ]} /\
    ((PyStr.upper (REQUEST_METHOD post_static) = "OPTIONS" /\
      status_code r = 200 /\ data r = Bytes []) \/
     (PyStr.upper (REQUEST_METHOD post_static) <> "OPTIONS" /\
      status_code r = 405)).
Proof.
  apply (static_view_only_get_head idna_ascii broken_static_view "app"
           empty_world (app_object broken_static_view "app") empty_world
           post_static styled_world "style.css");
    [reflexivity | reflexivity | reflexivity | reflexivity | reflexivity
     | reflexivity | discriminate | discriminate].
Defined.

(** X8.  A GET or HEAD request to [/static/<name>], the name in ASCII,
    that is no WebSocket request and whose host name the codec encodes
    runs the static view on the request and on exactly that name,
    slashes included.  If
    the view raises an HTTP exception (NotFound for a missing file, 416
    for a range it cannot serve, ...) the answer is the response of that
    exception; if it returns a response, that response is sent (without
    its body for HEAD); in both cases the world is left as the view left
    it.  If the view raises another exception, the answer is 500 and one
    traceback is added to the log of the world the view left. *)
Theorem static_get_outcomes idna sv name w0 a w1 env w t :
  app sv name w0 = (Return a, w1) ->
  idna (server_name env) = true ->
  is_websocket env = false ->
  PATH_INFO env = "/static/" ++ t ->
  path_regex t = true ->
  no_line_break t = true ->
  is_ascii_name t = true ->
  PyStr.upper (REQUEST_METHOD env) = "GET" \/
  PyStr.upper (REQUEST_METHOD env) = "HEAD" ->
  (forall e w', is_http_exception e = true ->
                sv env [("filename", t)] w = (Raise e, w') ->
                wsgi_app idna a env w
                = (Return (Response_call env (get_response e)), w')) /\
  (forall r w', sv env [("filename", t)] w = (Return (RvResponse r), w') ->
                wsgi_app idna a env w = (Return (Response_call env r), w')) /\
  (forall cls w', sv env [("filename", t)] w = (Raise (PyError cls), w') ->
                  exists r,
                    wsgi_app idna a env w
                    = (Return r, log_entry (Traceback cls) w') /\
                    status_code r = 500).
Proof.
  intros Happ Hhost Hws Hp Ht _ _ Hm. apply app_inv in Happ. subst a.
  rewrite (wsgi_app_static_view idna sv name env w t);
    [|unfold plain_http; now rewrite Hhost, Hws|assumption..].
  unfold try_except, bind. repeat split.
  - intros e w' He H. rewrite H.
    destruct e; try discriminate He; reflexivity.
  - intros r w' H. rewrite H. reflexivity.
  - intros cls w' H. rewrite H. eexists. split; reflexivity.
Qed.

Lemma static_get_outcomes_witness :
  wsgi_app idna_ascii (app_object files_static_view "app") get_static
           styled_world
  = (Return (mkResponse 200 "text/css" None None
                        (Bytes (list_byte_of_string "body{}"))),
     styled_world) /\
  wsgi_app idna_ascii (app_object files_static_view "app") get_static
           empty_world
  = (Return (mkResponse 404 "text/html" None None (StockPage 404)),
     empty_world) /\
  exists r,
    wsgi_app idna_ascii (app_object broken_static_view "app") get_static
             empty_world
    = (Return r, log_entry (Traceback "OSError") empty_world) /\
    status_code r = 500.
Proof.
  split; [|split].
  - destruct (static_get_outcomes idna_ascii files_static_view "app"
                empty_world (app_object files_static_view "app") empty_world
                get_static styled_world "style.css"
                eq_refl eq_refl eq_refl eq_refl eq_refl eq_refl eq_refl
                (or_introl eq_refl))
      as (_ & Hserved & _).
    apply (Hserved (mkResponse 200 "text/css" None None
                               (Bytes (list_byte_of_string "body{}")))).
    reflexivity.
  - destruct (static_get_outcomes idna_ascii files_static_view "app"
                empty_world (app_object files_static_view "app") empty_world
                get_static empty_world "style.css"
                eq_refl eq_refl eq_refl eq_refl eq_refl eq_refl eq_refl
                (or_introl eq_refl))
      as (Hhttp & _).
    apply (Hhttp NotFound empty_world); reflexivity.
  - destruct (static_get_outcomes idna_ascii broken_static_view "app"
                empty_world (app_object broken_static_view "app") empty_world
                get_static empty_world "style.css"
                eq_refl eq_refl eq_refl eq_refl eq_refl eq_refl eq_refl
                (or_introl eq_refl))
      as (_ & _ & Hbroken).
    apply (Hbroken "OSError" empty_world). reflexivity.
Defined.

(** X9.  The greeting is sent on the root path only: when the body of
    the response to a request not under [/static/] is the greeting, the
    path, read with one leading slash, is [/] and the method is GET or
    HEAD in some spelling. *)
Theorem greeting_only_on_root idna sv name w0 a w1 env w r w' :
  app sv name w0 = (Return a, w1) ->
  String.prefix "/static/" (path_part (PATH_INFO env)) = false ->
  wsgi_app idna a env w = (Return r, w') ->
  data r = Bytes (PyStr.encode greeting) ->
  path_part (PATH_INFO env) = "/" /\
  (PyStr.upper (REQUEST_METHOD env) = "GET" \/
   PyStr.upper (REQUEST_METHOD env) = "HEAD").
Proof.
  intros Happ Hstatic Hr Hdata. apply app_inv in Happ. subst a.
  destruct (wsgi_app_unstatic idna sv name env Hstatic) as (r0 & Hr0 & Hcases).
  rewrite Hr0 in Hr. inversion Hr; subst r0 w'. clear Hr.
  destruct Hcases as [(_ & Hq & Hm) | [(-> & _) | (e & -> & He)]].
  - auto.
  - exfalso. revert Hdata. vm_compute. discriminate.
  - exfalso. revert Hdata. unfold Response_call, get_app_iter.
    destruct e; try discriminate He; cbn [status_code data get_response];
      destruct (_ || _ || _ || _)%bool; vm_compute; discriminate.
Qed.

Lemma greeting_only_on_root_witness :
  path_part (PATH_INFO get_root_noisy) = "/" /\
  (PyStr.upper (REQUEST_METHOD get_root_noisy) = "GET" \/
   PyStr.upper (REQUEST_METHOD get_root_noisy) = "HEAD").
Proof.
  apply (greeting_only_on_root idna_ascii no_static_files "app" empty_world
           (app_object no_static_files "app") empty_world
           get_root_noisy busy_world greeting_response busy_world);
    reflexivity.
Defined.
